(** * header2post: a response-header-to-POST notification middleware

    A shallow embedding of the Go package [header2post] (the variant with
    forwarded request headers) and the properties its specification states
    about it.

    Go strings are byte strings: they are modelled by [string], whose
    characters are the 256 values of [ascii].  A [http.Header] is a map from
    header names to lists of values and is modelled by a [gmap].  The parts of
    the Go standard library the middleware calls (canonical header names,
    [strings.TrimSpace], [base64.StdEncoding.DecodeString], [log.Println]) are
    modelled here next to the code that uses them.

    A downstream handler is the list of the calls it makes on the writer and
    the request it is handed, the exported [Flush] and [Hijack] of the
    buffer included.  The real writer is known by its kind: what it does
    with a status code (takes it, sends it as an informational response,
    panics) and whether it takes bytes for a status; the recorder of the
    tests and the writer of the net/http server are the two kinds given.
    What the environment decides (whether the URL parses, what the transport
    answers, what reading a body gives, the order of a [range] over a map) is
    a parameter of [ServeHTTP]. *)

From Stdlib Require Import ZArith NArith Ascii String List DecimalString.
From stdpp Require Import gmap strings list fin_maps.
Import ListNotations.

Local Open Scope string_scope.
Local Open Scope Z_scope.

(** ** Byte strings *)

Definition byte_of (n : N) : ascii := ascii_of_N n.

Fixpoint bytes (l : list N) : string :=
  match l with
  | [] => EmptyString
  | n :: l' => String (byte_of n) (bytes l')
  end.

Fixpoint rev_onto (s acc : string) : string :=
  match s with
  | EmptyString => acc
  | String c s' => rev_onto s' (String c acc)
  end.

Definition string_rev (s : string) : string := rev_onto s EmptyString.

Definition in_range (lo hi : N) (c : ascii) : bool :=
  let n := N_of_ascii c in (N.leb lo n && N.leb n hi)%bool.

Definition is_byte (n : N) (c : ascii) : bool := N.eqb (N_of_ascii c) n.

(** ** net/textproto: canonical header names *)

Module textproto.

(** [validHeaderFieldByte]: the token characters of RFC 7230. *)
Definition validHeaderFieldByte (c : ascii) : bool :=
  (in_range 48 57 c || in_range 97 122 c || in_range 65 90 c
   || existsb (fun n => is_byte n c)
        [33; 35; 36; 37; 38; 39; 42; 43; 45; 46; 94; 95; 96; 124; 126]%N)%bool.

Fixpoint allValid (s : string) : bool :=
  match s with
  | EmptyString => true
  | String c s' => (validHeaderFieldByte c && allValid s')%bool
  end.

Definition toLower : N := 32.

(** The rewriting loop of [canonicalMIMEHeaderKey]: upper case for the first
    letter and for a letter after a dash, lower case elsewhere. *)
Fixpoint canonicalize (upper : bool) (s : string) : string :=
  match s with
  | EmptyString => EmptyString
  | String c s' =>
      let c' :=
        if (upper && in_range 97 122 c)%bool then byte_of (N_of_ascii c - toLower)
        else if (negb upper && in_range 65 90 c)%bool then byte_of (N_of_ascii c + toLower)
        else c in
      String c' (canonicalize (is_byte 45 c') s')
  end.

(** [CanonicalMIMEHeaderKey]: a name holding a byte that is no token
    character (a space included) is returned unchanged. *)
Definition CanonicalMIMEHeaderKey (s : string) : string :=
  if allValid s then canonicalize true s else s.

End textproto.

(** ** strings.TrimSpace *)

Module strings.

(** The ASCII part of [unicode.IsSpace]: tab, newline, vertical tab, form
    feed, carriage return, space. *)
Definition asciiSpace (c : ascii) : bool :=
  (in_range 9 13 c || is_byte 32 c)%bool.

(** UTF-8 encodings, of two and of three bytes, of the other white space
    runes: U+0085, U+00A0; U+1680, U+2000..U+200A, U+2028, U+2029, U+202F,
    U+205F, U+3000. *)
Definition space2 (c1 c2 : ascii) : bool :=
  (is_byte 194 c1 && (is_byte 133 c2 || is_byte 160 c2))%bool.

Definition space3 (c1 c2 c3 : ascii) : bool :=
  ((is_byte 225 c1 && is_byte 154 c2 && is_byte 128 c3)
   || (is_byte 226 c1 && is_byte 128 c2
       && (in_range 128 138 c3 || is_byte 168 c3 || is_byte 169 c3 || is_byte 175 c3))
   || (is_byte 226 c1 && is_byte 129 c2 && is_byte 159 c3)
   || (is_byte 227 c1 && is_byte 128 c2 && is_byte 128 c3))%bool.

Fixpoint trimLeft (s : string) : string :=
  match s with
  | EmptyString => EmptyString
  | String c1 s1 =>
      if asciiSpace c1 then trimLeft s1 else
      match s1 with
      | EmptyString => s
      | String c2 s2 =>
          if space2 c1 c2 then trimLeft s2 else
          match s2 with
          | EmptyString => s
          | String c3 s3 => if space3 c1 c2 c3 then trimLeft s3 else s
          end
      end
  end.

(** The same on the reversed string: the last rune is found from the end. *)
Fixpoint trimLeftRev (s : string) : string :=
  match s with
  | EmptyString => EmptyString
  | String c1 s1 =>
      if asciiSpace c1 then trimLeftRev s1 else
      match s1 with
      | EmptyString => s
      | String c2 s2 =>
          if space2 c2 c1 then trimLeftRev s2 else
          match s2 with
          | EmptyString => s
          | String c3 s3 => if space3 c3 c2 c1 then trimLeftRev s3 else s
          end
      end
  end.

Definition trimRight (s : string) : string :=
  string_rev (trimLeftRev (string_rev s)).

Definition TrimSpace (s : string) : string := trimRight (trimLeft s).

End strings.

(** ** encoding/base64: StdEncoding.DecodeString *)

Module base64.

(** [CorruptInputError]: the offset of the offending input byte. *)
Inductive CorruptInputError := Corrupt (offset : N).

(** [decodeMap] of the standard alphabet; [None] stands for 0xff. *)
Definition decodeMap (c : ascii) : option N :=
  let n := N_of_ascii c in
  if in_range 65 90 c then Some (n - 65)%N
  else if in_range 97 122 c then Some (n - 97 + 26)%N
  else if in_range 48 57 c then Some (n - 48 + 52)%N
  else if is_byte 43 c then Some 62%N
  else if is_byte 47 c then Some 63%N
  else None.

Definition padChar : N := 61.

Definition isNewline (c : ascii) : bool := (is_byte 10 c || is_byte 13 c)%bool.

(** The 24-bit value of a quantum, from its sextets (missing ones are 0). *)
Definition quantum (dbuf : list N) : N :=
  N.lor (N.lor (N.lor (N.shiftl (nth 0 dbuf 0%N) 18) (N.shiftl (nth 1 dbuf 0%N) 12))
               (N.shiftl (nth 2 dbuf 0%N) 6))
        (nth 3 dbuf 0%N).

(** The [dlen - 1] bytes a quantum of [dlen] sextets yields. *)
Definition quantumBytes (dlen : nat) (dbuf : list N) : string :=
  let val := quantum dbuf in
  let b0 := byte_of (N.land (N.shiftr val 16) 255) in
  let b1 := byte_of (N.land (N.shiftr val 8) 255) in
  let b2 := byte_of (N.land val 255) in
  match dlen with
  | 4%nat => String b0 (String b1 (String b2 EmptyString))
  | 3%nat => String b0 (String b1 EmptyString)
  | 2%nat => String b0 EmptyString
  | _ => EmptyString
  end.

(** Skipping of newlines after padding; returns the rest and its offset. *)
Fixpoint skipNewlines (src : string) (si : N) : string * N :=
  match src with
  | String c src' => if isNewline c then skipNewlines src' (si + 1)%N else (src, si)
  | EmptyString => (src, si)
  end.

(** After the padding of a quantum of [j] sextets: only newlines may
    follow, anything else is trailing garbage. *)
Definition afterPadding (j : nat) (dbuf : list N) (src : string) (si : N)
    : string + CorruptInputError :=
  let '(rest, si') := skipNewlines src si in
  match rest with
  | EmptyString => inl (quantumBytes j dbuf)
  | String _ _ => inr (Corrupt si')
  end.

(** [Decode]: the loop over [decodeQuantum].  [src] is the input still to be
    read, [si] its offset in the whole input, [dbuf] the sextets of the
    current quantum (their number is the [j] of the source). *)
Fixpoint decodeLoop (src : string) (si : N) (dbuf : list N)
    : string + CorruptInputError :=
  let j := length dbuf in
  match src with
  | EmptyString =>
      match j with
      | O => inl EmptyString
      | _ => inr (Corrupt (si - N.of_nat j))
      end
  | String c src' =>
      match decodeMap c with
      | Some out =>
          match j with
          | 3%nat =>
              match decodeLoop src' (si + 1)%N [] with
              | inl rest => inl (quantumBytes 4 (dbuf ++ [out]) +:+ rest)
              | inr e => inr e
              end
          | _ => decodeLoop src' (si + 1)%N (dbuf ++ [out])
          end
      | None =>
          if isNewline c then decodeLoop src' (si + 1)%N dbuf
          else if negb (is_byte padChar c) then inr (Corrupt si)
          else
            match j with
            | 0%nat | 1%nat => inr (Corrupt si)
            | 2%nat =>
                let '(rest, si') := skipNewlines src' (si + 1)%N in
                match rest with
                | EmptyString => inr (Corrupt si')
                | String c' rest' =>
                    if negb (is_byte padChar c') then inr (Corrupt (si' - 1))
                    else afterPadding j dbuf rest' (si' + 1)%N
                end
            | _ => afterPadding j dbuf src' (si + 1)%N
            end
      end
  end.

Definition DecodeString (s : string) : string + CorruptInputError :=
  decodeLoop s 0%N [].

(** [CorruptInputError.Error]. *)
Definition Error (e : CorruptInputError) : string :=
  match e with
  | Corrupt n => "illegal base64 data at input byte " +:+ NilZero.string_of_uint (N.to_uint n)
  end.

End base64.

(** ** log.Println *)

(** The line [log.Println] writes for its operands: they are separated by
    one space each.  The time stamp in front and the newline at the end are
    left out. *)
Fixpoint Println (args : list string) : string :=
  match args with
  | [] => EmptyString
  | [x] => x
  | x :: rest => x +:+ " " +:+ Println rest
  end.

(** ** net/http: headers, requests, responses, response writers *)

Module http.

Abbreviation Header := (gmap string (list string)).

Definition StatusOK : Z := 200.
Definition StatusAccepted : Z := 202.

(** [Header.Get]: the first value under the canonical name, or the empty
    string. *)
Definition Header_Get (h : Header) (key : string) : string :=
  match h !! textproto.CanonicalMIMEHeaderKey key with
  | Some (v :: _) => v
  | _ => EmptyString
  end.

Definition Header_Set (h : Header) (key value : string) : Header :=
  <[textproto.CanonicalMIMEHeaderKey key := [value]]> h.

Definition Header_Add (h : Header) (key value : string) : Header :=
  let k := textproto.CanonicalMIMEHeaderKey key in
  <[k := (default [] (h !! k) ++ [value])%list]> h.

Definition Header_Del (h : Header) (key : string) : Header :=
  delete (textproto.CanonicalMIMEHeaderKey key) h.

Record Request := mkRequest {
  Method : string;
  URL : string;
  ReqHeader : Header;
  ReqBody : string
}.

(** A response of the notification endpoint.  [Body] names the stream that
    [readBody] reads; what reading it gives is decided by the environment. *)
Record Response := mkResponse {
  StatusCode : Z;
  Body : string
}.

(** The calls a [ResponseWriter] receives, in order. *)
Inductive Call :=
| CallWriteHeader (code : Z)
| CallWrite (b : string)
| CallFlush
| CallHijack.

(** What a real writer does with the status code of a [WriteHeader] that
    comes first: it takes it as the status of the response, it sends it as an
    informational response and goes on waiting for the final one, or it
    panics. *)
Inductive Verdict :=
| Accept
| Interim
| Refuse (v : string).

(** The kind of a real writer: its verdict on a status code, the error its
    [Write] returns for bytes of a response of a given status (none when it
    takes them), whether it is an [http.Flusher] and an [http.Hijacker], and
    the name of its type. *)
Record Policy := mkPolicy {
  onWriteHeader : Z → Verdict;
  bodyError : Z → option string;
  isFlusher : bool;
  isHijacker : bool;
  typeName : string
}.

(** The real sink behind the interface [http.ResponseWriter]: the header
    map that [Header()] hands out, the status line and the headers frozen by
    the [WriteHeader] it accepted, the body bytes it took, the calls
    received, the informational responses sent, whether the connection was
    hijacked, and its kind. *)
Record ResponseWriter := mkResponseWriter {
  header : Header;
  wrote : option (Z * Header);
  written : string;
  calls : list Call;
  interim : list (Z * Header);
  hijacked : bool;
  policy : Policy
}.

Definition commit (code : Z) (rw : ResponseWriter) : option (Z * Header) :=
  match wrote rw with
  | Some x => Some x
  | None => Some (code, header rw)
  end.

Definition rw_setHeader (rw : ResponseWriter) (h : Header) : ResponseWriter :=
  {| header := h; wrote := wrote rw; written := written rw; calls := calls rw;
     interim := interim rw; hijacked := hijacked rw; policy := policy rw |}.

Definition rw_called (rw : ResponseWriter) (c : Call) : ResponseWriter :=
  {| header := header rw; wrote := wrote rw; written := written rw;
     calls := (calls rw ++ [c])%list;
     interim := interim rw; hijacked := hijacked rw; policy := policy rw |}.

Definition rw_setWrote (rw : ResponseWriter) (x : option (Z * Header)) : ResponseWriter :=
  {| header := header rw; wrote := x; written := written rw; calls := calls rw;
     interim := interim rw; hijacked := hijacked rw; policy := policy rw |}.

Definition rw_informed (rw : ResponseWriter) (code : Z) : ResponseWriter :=
  {| header := header rw; wrote := wrote rw; written := written rw; calls := calls rw;
     interim := (interim rw ++ [(code, header rw)])%list;
     hijacked := hijacked rw; policy := policy rw |}.

Definition rw_took (rw : ResponseWriter) (b : string) : ResponseWriter :=
  {| header := header rw; wrote := wrote rw; written := written rw +:+ b;
     calls := calls rw;
     interim := interim rw; hijacked := hijacked rw; policy := policy rw |}.

Definition rw_setHijacked (rw : ResponseWriter) : ResponseWriter :=
  {| header := header rw; wrote := wrote rw; written := written rw; calls := calls rw;
     interim := interim rw; hijacked := true; policy := policy rw |}.

(** [WriteHeader]: nothing on a hijacked connection, nothing when the
    status line was written before; otherwise the verdict of the writer on
    the code.  The second component is the value of the panic, if any. *)
Definition rw_WriteHeader (rw : ResponseWriter) (code : Z)
    : ResponseWriter * option string :=
  let rw := rw_called rw (CallWriteHeader code) in
  if hijacked rw then (rw, None)
  else
    match wrote rw with
    | Some _ => (rw, None)
    | None =>
        match onWriteHeader (policy rw) code with
        | Refuse v => (rw, Some v)
        | Interim => (rw_informed rw code, None)
        | Accept => (rw_setWrote rw (Some (code, header rw)), None)
        end
    end.

Definition ErrHijacked : string := "http: connection has been hijacked".

(** [Write]: an error on a hijacked connection; otherwise a [Write] before
    any accepted [WriteHeader] implies [WriteHeader(StatusOK)], no bytes are
    no error, and other bytes are taken or refused with an error, by the
    status of the response.  The second component is the error, if any. *)
Definition rw_Write (rw : ResponseWriter) (b : string)
    : ResponseWriter * option string :=
  let rw := rw_called rw (CallWrite b) in
  if hijacked rw then (rw, Some ErrHijacked)
  else
    let rw := rw_setWrote rw (commit StatusOK rw) in
    match b with
    | EmptyString => (rw, None)
    | String _ _ =>
        match bodyError (policy rw) (default StatusOK (fst <$> wrote rw)) with
        | Some e => (rw, Some e)
        | None => (rw_took rw b, None)
        end
    end.

(** [Flush] of a writer that is an [http.Flusher]: the status line goes
    out, with [StatusOK] when none was written. *)
Definition rw_Flush (rw : ResponseWriter) : ResponseWriter :=
  if isFlusher (policy rw) then
    let rw := rw_called rw CallFlush in
    if hijacked rw then rw else rw_setWrote rw (commit StatusOK rw)
  else rw.

(** [Hijack] of a writer that is an [http.Hijacker]. *)
Definition rw_Hijack (rw : ResponseWriter) : ResponseWriter :=
  if isHijacker (policy rw) then rw_setHijacked (rw_called rw CallHijack) else rw.

(** [checkWriteHeaderCode] of net/http. *)
Definition checkWriteHeaderCode (code : Z) : option string :=
  if ((code <? 100) || (999 <? code))%bool
  then Some ("invalid WriteHeader code " +:+ NilZero.string_of_int (Z.to_int code))
  else None.

Definition ErrBodyNotAllowed : string :=
  "http: request method or response status code does not allow body".

(** [httptest.ResponseRecorder], the writer of the tests: any valid code is
    the status, any bytes are taken; it is no [http.Hijacker]. *)
Definition recorder : Policy :=
  {| onWriteHeader := λ code,
       match checkWriteHeaderCode code with
       | Some v => Refuse v
       | None => Accept
       end;
     bodyError := λ _, None;
     isFlusher := true;
     isHijacker := false;
     typeName := "*httptest.ResponseRecorder" |}.

(** The writer of the net/http server: a code from 100 to 199 other than
    101 is an informational response; a response of status 1xx, 204 or 304
    takes no body. *)
Definition server : Policy :=
  {| onWriteHeader := λ code,
       match checkWriteHeaderCode code with
       | Some v => Refuse v
       | None =>
           if ((100 <=? code) && (code <=? 199) && negb (code =? 101))%bool
           then Interim else Accept
       end;
     bodyError := λ status,
       if (((100 <=? status) && (status <=? 199)) || (status =? 204) || (status =? 304))%bool
       then Some ErrBodyNotAllowed else None;
     isFlusher := true;
     isHijacker := true;
     typeName := "*http.response" |}.

(** A sink of kind [P] nothing was written to yet, whose header map holds
    [h]. *)
Definition freshOf (P : Policy) (h : Header) : ResponseWriter :=
  {| header := h; wrote := None; written := EmptyString; calls := [];
     interim := []; hijacked := false; policy := P |}.

(** The recorder of the tests. *)
Definition fresh (h : Header) : ResponseWriter := freshOf recorder h.

(** What the client receives as the final response: status code, headers,
    body. *)
Definition delivered (rw : ResponseWriter) : option (Z * Header * string) :=
  match wrote rw with
  | Some (code, h) => Some (code, h, written rw)
  | None => None
  end.

End http.

Import http.

(** ** The outside world of one request *)

(** The three calls of [ServeHTTP] whose result is not decided by the
    package: parsing the configured URL in [http.NewRequest], sending the
    request ([mockPost] or [http.DefaultClient.Do]) and reading the body of
    the answer ([mockRead] or [io.ReadAll]).  An error is its message. *)
Record Env := mkEnv {
  parseURL : string -> option string;
  roundTrip : Request -> Response + string;
  readAll : string -> string + string
}.

(** [http.NewRequest]: fails when the URL does not parse. *)
Definition NewRequest (E : Env) (method url body : string) : Request + string :=
  match parseURL E url with
  | Some err => inr err
  | None => inl {| Method := method; URL := url; ReqHeader := ∅; ReqBody := body |}
  end.

(** ** The package *)

Record Config := mkConfig {
  NotifyHeader : string;
  NotifyUrl : string;
  ForwardHeaders : list string
}.

Definition CreateConfig : Config :=
  {| NotifyHeader := EmptyString; NotifyUrl := EmptyString; ForwardHeaders := [] |}.

(** What a downstream handler does with the writer and the request it is
    given: [w.Header().Set], [.Add], [.Del], a direct assignment
    [w.Header()[k] = vs], [w.Write], [w.WriteHeader], [r.Header.Add],
    [r.Header.Set], a panic, which ends it; [Flush] and [Hijack], which it
    reaches through [w.(http.Flusher)] and [w.(http.Hijacker)] when the
    writer has these methods; and overwriting, with the bytes [b] from its
    start on, the slice it passed to its last [Write]. *)
Inductive HandlerCall :=
| DoHeaderSet (k v : string)
| DoHeaderAdd (k v : string)
| DoHeaderDel (k : string)
| DoHeaderAssign (k : string) (vs : list string)
| DoWrite (b : string)
| DoWriteHeader (code : Z)
| DoReqHeaderAdd (k v : string)
| DoReqHeaderSet (k v : string)
| DoPanic (v : string)
| DoFlush
| DoHijack
| DoOverwrite (b : string).

Definition Handler := list HandlerCall.

Record notify := mkNotify {
  next : Handler;
  forwardHeaders : list string;
  notifyHeader : string;
  notifyUrl : string;
  name : string
}.

(** [New]: the pair of a handler and an error, one of them nil.  The
    context argument of the source is not used by it and is left out. *)
Definition New (next : Handler) (config : Config) (name : string)
    : option notify * option string :=
  if (String.length (NotifyHeader config) =? 0)%nat then
    (None, Some "notifyheader cannot be empty")
  else if (String.length (NotifyUrl config) =? 0)%nat then
    (None, Some "notifyurl cannot be empty")
  else
    (Some {| next := next;
             name := name;
             notifyHeader := NotifyHeader config;
             notifyUrl := NotifyUrl config;
             forwardHeaders := ForwardHeaders config |},
     None).

(** *** The response buffer *)

Record wrappedResponseWriter := mkWrapped {
  w : ResponseWriter;
  buf : string;
  code : Z
}.

Definition newResponseWriter (rw : ResponseWriter) : wrappedResponseWriter :=
  {| w := rw; buf := EmptyString; code := StatusOK |}.

Definition Header (wr : wrappedResponseWriter) : http.Header := header (w wr).

(** A change of the map that [Header()] returns is a change of the sink's
    own map. *)
Definition withHeader (wr : wrappedResponseWriter) (h : http.Header)
    : wrappedResponseWriter :=
  {| w := rw_setHeader (w wr) h; buf := buf wr; code := code wr |}.

Definition Write (wr : wrappedResponseWriter) (b : string) : wrappedResponseWriter :=
  {| w := w wr; buf := buf wr +:+ b; code := code wr |}.

Definition WriteHeader (wr : wrappedResponseWriter) (c : Z) : wrappedResponseWriter :=
  {| w := w wr; buf := buf wr; code := c |}.

(** [io.Copy] from a [bytes.Buffer]: its [WriteTo] makes one [Write] with
    all the bytes when there are any, and none otherwise.  The second
    component is what stays in the buffer: nothing, or all the bytes when the
    [Write] returned an error. *)
Definition io_Copy (dst : ResponseWriter) (src : string) : ResponseWriter * string :=
  match src with
  | EmptyString => (dst, EmptyString)
  | String _ _ =>
      match rw_Write dst src with
      | (dst, None) => (dst, EmptyString)
      | (dst, Some _) => (dst, src)
      end
  end.

(** [Flush].  A panic of the [WriteHeader] of the sink leaves before the
    copy; the error of the copy is dropped.  The second component is the
    value of the panic, if any. *)
Definition Flush (wr : wrappedResponseWriter) : wrappedResponseWriter * option string :=
  match rw_WriteHeader (w wr) (code wr) with
  | (sink, Some v) => ({| w := sink; buf := buf wr; code := code wr |}, Some v)
  | (sink, None) =>
      let '(sink, rest) := io_Copy sink (buf wr) in
      ({| w := sink; buf := rest; code := code wr |}, None)
  end.

(** [Hijack]: the connection of the sink when it is an [http.Hijacker], an
    error otherwise.  The second component is the error, if any. *)
Definition Hijack (wr : wrappedResponseWriter) : wrappedResponseWriter * option string :=
  if isHijacker (policy (w wr)) then
    ({| w := rw_Hijack (w wr); buf := buf wr; code := code wr |}, None)
  else (wr, Some (typeName (policy (w wr)) +:+ " is not an http.Hijacker")).

(** *** The downstream handler at work *)

Definition withReqHeader (r : Request) (h : http.Header) : Request :=
  {| Method := Method r; URL := URL r; ReqHeader := h; ReqBody := ReqBody r |}.

(** One call of the handler, on the buffer it was given as its writer and
    on the request, with the value of the panic that ends the handler there,
    if any: its own, or that of a [Flush] whose status code the sink
    refuses.  The buffer copies the bytes of a [Write], so that overwriting
    the slice afterwards changes nothing. *)
Definition handlerCall (c : HandlerCall) (wr : wrappedResponseWriter) (req : Request)
    : wrappedResponseWriter * Request * option string :=
  match c with
  | DoHeaderSet k v => (withHeader wr (Header_Set (Header wr) k v), req, None)
  | DoHeaderAdd k v => (withHeader wr (Header_Add (Header wr) k v), req, None)
  | DoHeaderDel k => (withHeader wr (Header_Del (Header wr) k), req, None)
  | DoHeaderAssign k vs => (withHeader wr (<[k := vs]> (Header wr)), req, None)
  | DoWrite b => (Write wr b, req, None)
  | DoWriteHeader c => (WriteHeader wr c, req, None)
  | DoReqHeaderAdd k v => (wr, withReqHeader req (Header_Add (ReqHeader req) k v), None)
  | DoReqHeaderSet k v => (wr, withReqHeader req (Header_Set (ReqHeader req) k v), None)
  | DoPanic v => (wr, req, Some v)
  | DoFlush => let '(wr, p) := Flush wr in (wr, req, p)
  | DoHijack => ((Hijack wr).1, req, None)
  | DoOverwrite _ => (wr, req, None)
  end.

(** [next.ServeHTTP(respWriter, req)]: the buffer and the request as the
    handler leaves them, and the value it panicked with, if it did. *)
Fixpoint Handler_ServeHTTP (h : Handler) (wr : wrappedResponseWriter) (req : Request)
    : wrappedResponseWriter * Request * option string :=
  match h with
  | [] => (wr, req, None)
  | c :: h' =>
      match handlerCall c wr req with
      | (wr', req', Some v) => (wr', req', Some v)
      | (wr', req', None) => Handler_ServeHTTP h' wr' req'
      end
  end.

(** *** The notification *)

(** What the notification path does to the outside: the lines it logs, the
    requests it hands to [post], the bodies it reads. *)
Record Effects := mkEffects {
  logged : list string;
  posted : list Request;
  bodiesRead : list string
}.

Definition noEffects : Effects :=
  {| logged := []; posted := []; bodiesRead := [] |}.

Definition logOnly (line : string) : Effects :=
  {| logged := [line]; posted := []; bodiesRead := [] |}.

Definition readBody (E : Env) (r : string) : string + string := readAll E r.

Definition post (a : notify) (E : Env) (req : Request) : Response + string :=
  roundTrip E req.

(** The first loop over [a.forwardHeaders]: it fills a map of its own,
    which nothing reads afterwards. *)
Definition collectForward (req : Request) (fh : http.Header) (k : string) : http.Header :=
  let v := Header_Get (ReqHeader req) k in
  if String.eqb v EmptyString then fh else Header_Add fh k v.

(** The body of the second loop over [a.forwardHeaders]. *)
Definition forwardHeader (req : Request) (myreq : Request) (h : string) : Request :=
  let headerValu := strings.TrimSpace (Header_Get (ReqHeader req) h) in
  if String.eqb headerValu EmptyString then myreq
  else withReqHeader myreq (Header_Set (ReqHeader myreq) h headerValu).

(** The request that is posted, once [http.NewRequest] has made [myreq]. *)
Definition prepare (a : notify) (req : Request) (myreq : Request) : Request :=
  let myreq := withReqHeader myreq
                 (Header_Set (ReqHeader myreq) "Content-Type" "application/json") in
  fold_left (forwardHeader req) (forwardHeaders a) myreq.

(** [ServeHTTP] from the end of [next.ServeHTTP] to its last line. *)
Definition notification (a : notify) (E : Env) (respWriter : wrappedResponseWriter)
    (req : Request) : Effects :=
  let value := Header_Get (Header respWriter) (notifyHeader a) in
  if String.eqb value EmptyString then noEffects else
  match base64.DecodeString value with
  | inr err => logOnly (Println ["base64 decode error:"; base64.Error err])
  | inl data =>
      let forwardHeaders := fold_left (collectForward req) (forwardHeaders a) ∅ in
      match NewRequest E "POST" (notifyUrl a) data with
      | inr err => logOnly (Println ["create http request error:"; err])
      | inl myreq =>
          let myreq := prepare a req myreq in
          match post a E myreq with
          | inr err =>
              {| logged := [Println ["post error:"; err]];
                 posted := [myreq]; bodiesRead := [] |}
          | inl resp =>
              if StatusCode resp =? StatusAccepted then
                {| logged := [Println ["notify success"]];
                   posted := [myreq]; bodiesRead := [] |}
              else
                match readBody E (Body resp) with
                | inr err =>
                    {| logged := [Println ["read resp body error:"; err]];
                       posted := [myreq]; bodiesRead := [Body resp] |}
                | inl bodyBytes =>
                    {| logged := [Println ["notify failed: "; bodyBytes]];
                       posted := [myreq]; bodiesRead := [Body resp] |}
                end
          end
      end
  end.

(** The deferred function of [ServeHTTP], with the value of its panic, if
    any. *)
Definition deferred (a : notify) (respWriter : wrappedResponseWriter)
    : wrappedResponseWriter * option string :=
  let respWriter := withHeader respWriter (Header_Del (Header respWriter) (notifyHeader a)) in
  Flush respWriter.

(** The panic that leaves a function: that of its deferred function when
    it panics, which takes the place of the one in flight. *)
Definition leaving (inFlight fromDeferred : option string) : option string :=
  match fromDeferred with
  | Some v => Some v
  | None => inFlight
  end.

(** What one call of [ServeHTTP] leaves behind: the sink, the effects of the
    notification path, and the panic that goes on to the caller, if any. *)
Record Outcome := mkOutcome {
  sink : ResponseWriter;
  effects : Effects;
  panicked : option string
}.

(** [ServeHTTP].  A panic of the handler skips the notification path; the
    deferred function runs on every way out, and may panic itself. *)
Definition ServeHTTP (a : notify) (E : Env) (rw : ResponseWriter) (req : Request)
    : Outcome :=
  let respWriter := newResponseWriter rw in
  let '(respWriter, req, pan) := Handler_ServeHTTP (next a) respWriter req in
  let eff :=
    match pan with
    | Some _ => noEffects
    | None => notification a E respWriter req
    end in
  let '(respWriter, pan') := deferred a respWriter in
  {| sink := w respWriter; effects := eff; panicked := leaving pan pan' |}.

(** The buffer as the handler leaves it: what the handler wrote. *)
Definition handled (a : notify) (rw : ResponseWriter) (req : Request)
    : wrappedResponseWriter :=
  (Handler_ServeHTTP (next a) (newResponseWriter rw) req).1.1.

Definition handledRequest (a : notify) (rw : ResponseWriter) (req : Request) : Request :=
  (Handler_ServeHTTP (next a) (newResponseWriter rw) req).1.2.

Definition handlerPanic (a : notify) (rw : ResponseWriter) (req : Request)
    : option string :=
  (Handler_ServeHTTP (next a) (newResponseWriter rw) req).2.

(** ** Notions the properties are stated with *)

(** Whether a call of the handler is a [WriteHeader]. *)
Definition setsStatus (c : HandlerCall) : bool :=
  match c with
  | DoWriteHeader _ => true
  | _ => false
  end.

(** The calls one [Flush] makes on the sink. *)
Definition flushCalls (wr : wrappedResponseWriter) : list Call :=
  CallWriteHeader (code wr) ::
  match buf wr with
  | EmptyString => []
  | String _ _ => [CallWrite (buf wr)]
  end.

Definition isWriteHeader (c : Call) : bool :=
  match c with
  | CallWriteHeader _ => true
  | _ => false
  end.

(** Whether a call of the handler is a [Flush] or a [Hijack]. *)
Definition isFlush (c : HandlerCall) : bool :=
  match c with
  | DoFlush => true
  | _ => false
  end.

Definition isHijack (c : HandlerCall) : bool :=
  match c with
  | DoHijack => true
  | _ => false
  end.

(** A handler that neither flushes nor hijacks: it leaves the sending of
    the response to the middleware. *)
Definition quiet (h : Handler) : bool :=
  forallb (λ c, negb (isFlush c || isHijack c)) h.

(** The marker value that the notification path reads: the first value of
    the marker header in the buffer as the handler left it. *)
Definition markerValue (a : notify) (rw : ResponseWriter) (req : Request) : string :=
  Header_Get (Header (handled a rw req)) (notifyHeader a).

(** The response as the handler wrote it into the buffer. *)
Definition bufferedResponse (wr : wrappedResponseWriter) : Z * http.Header * string :=
  (code wr, Header wr, buf wr).

(** The sentence of the specification on a marker that is absent or empty,
    read literally: the client receives the response of the buffer, headers
    included, and nothing is posted. *)
Definition unmarked_identical_as_stated (a : notify) (E : Env) (h0 : http.Header)
    (req : Request) : Prop :=
  markerValue a (fresh h0) req = EmptyString →
  delivered (sink (ServeHTTP a E (fresh h0) req))
    = Some (bufferedResponse (handled a (fresh h0) req))
  ∧ posted (effects (ServeHTTP a E (fresh h0) req)) = [].

(** The request handed to [post] when the URL parses. *)
Definition outgoing (a : notify) (req : Request) (data : string) : Request :=
  prepare a req
    {| Method := "POST"; URL := notifyUrl a; ReqHeader := ∅; ReqBody := data |}.

(** The first value a request holds under the name [k], taken as it is. *)
Definition requestValue (req : Request) (k : string) : string :=
  match ReqHeader req !! k with
  | Some (v :: _) => v
  | _ => EmptyString
  end.

(** Whether [k] is the canonical form of a configured forward-header name. *)
Definition configured (fwd : list string) (k : string) : bool :=
  existsb (String.eqb k) (map textproto.CanonicalMIMEHeaderKey fwd).

(** The sentence of the specification on forwarded headers, read literally:
    a value that is not empty once trimmed is set as it was read, and the
    header of any other configured name is not on the notification request. *)
Definition forwarded_verbatim_as_stated (a : notify) (E : Env) (rw : ResponseWriter)
    (req : Request) : Prop :=
  ∀ h r, In h (forwardHeaders a) →
    posted (effects (ServeHTTP a E rw req)) = [r] →
    (strings.TrimSpace (Header_Get (ReqHeader (handledRequest a rw req)) h) ≠ EmptyString →
       ReqHeader r !! textproto.CanonicalMIMEHeaderKey h
       = Some [Header_Get (ReqHeader (handledRequest a rw req)) h])
    ∧ (strings.TrimSpace (Header_Get (ReqHeader (handledRequest a rw req)) h) = EmptyString →
       ReqHeader r !! textproto.CanonicalMIMEHeaderKey h = None).

(** ** The cases of the package's tests *)

Module Tests.

Definition notifyHeaderKey : string := "X-Notify".

Definition config (fwd : list string) : Config :=
  {| NotifyHeader := notifyHeaderKey;
     NotifyUrl := "https://example.com/notification";
     ForwardHeaders := fwd |}.

Definition middleware (next : Handler) (fwd : list string) : notify :=
  {| next := next; forwardHeaders := fwd;
     notifyHeader := notifyHeaderKey;
     notifyUrl := "https://example.com/notification";
     name := "header2post" |}.

(** [http.NewRequest("GET", "/", nil)] and [httptest.NewRecorder()]. *)
Definition req : Request :=
  {| Method := "GET"; URL := "/"; ReqHeader := ∅; ReqBody := EmptyString |}.

Definition recorder : ResponseWriter := fresh ∅.

(** base64 of the bytes of hello world. *)
Definition helloWorld64 : string := "aGVsbG8gd29ybGQ=".

Definition emptyHeader : Handler :=
  [DoWriteHeader StatusOK; DoWrite "hello world"].

Definition invalidBase64 : Handler :=
  [DoHeaderAdd notifyHeaderKey "invalid-base64-value";
   DoWriteHeader StatusOK; DoWrite "hello world"].

Definition validBadRequest : Handler :=
  [DoHeaderAdd notifyHeaderKey helloWorld64;
   DoWriteHeader 400; DoWrite "hello world"].

Definition validWithHeaders : Handler :=
  [DoHeaderAdd notifyHeaderKey helloWorld64;
   DoHeaderAdd "Content-Type" "text/plain";
   DoHeaderAdd "Test" "1"; DoHeaderAdd "Test" "2";
   DoWriteHeader StatusOK; DoWrite "hello world"].

Definition forwarding : Handler :=
  [DoReqHeaderAdd "X-Test-Forward-A" "a"; DoReqHeaderAdd "X-Test-Forward-B" "b";
   DoHeaderAdd notifyHeaderKey helloWorld64;
   DoWriteHeader StatusOK; DoWrite "hello world"].

Definition forwardNames : list string :=
  ["X-Test-Forward-A"; "X-Test-Forward-B"; "X-Test-Forward-C"].

(** Handlers the tests do not have: a marker set to the empty string, a
    forwarded value with blanks around it, no status code, a panic after
    the first bytes. *)
Definition emptyMarker : Handler :=
  [DoHeaderSet notifyHeaderKey EmptyString; DoWrite "hello world"].

Definition forwardingBlanks : Handler :=
  [DoReqHeaderAdd "X-Test-Forward-A" " a ";
   DoHeaderAdd notifyHeaderKey helloWorld64; DoWrite "hello world"].

Definition noStatus : Handler :=
  [DoHeaderAdd notifyHeaderKey helloWorld64; DoWrite "hello world"].

Definition panicking : Handler :=
  [DoHeaderAdd notifyHeaderKey helloWorld64; DoWriteHeader 500;
   DoWrite "hello"; DoPanic "boom"; DoWrite " world"].

(** The mocks of the tests. *)
Definition mockAccepted : Env :=
  {| parseURL := fun _ => None;
     roundTrip := fun _ => inl {| StatusCode := StatusAccepted; Body := EmptyString |};
     readAll := fun r => inl r |}.

Definition mockPostError : Env :=
  {| parseURL := fun _ => None;
     roundTrip := fun _ => inr "post error";
     readAll := fun r => inl r |}.

Definition mockBadRequest : Env :=
  {| parseURL := fun _ => None;
     roundTrip := fun _ => inl {| StatusCode := 400; Body := "invalid notify url" |};
     readAll := fun r => inl r |}.

Definition mockReadError : Env :=
  {| parseURL := fun _ => None;
     roundTrip := fun _ => inl {| StatusCode := 400; Body := "invalid notify url" |};
     readAll := fun _ => inr "read body error" |}.

(** A URL parser that knows one rule of [url.Parse]: a URL that starts with
    a colon has no scheme. *)
Definition quoted (s : string) : string := bytes [34%N] +:+ s +:+ bytes [34%N].

Definition missingScheme (u : string) : option string :=
  match u with
  | String c _ =>
      if is_byte 58 c then Some ("parse " +:+ quoted u +:+ ": missing protocol scheme")
      else None
  | EmptyString => None
  end.

Definition strictURL : Env :=
  {| parseURL := missingScheme;
     roundTrip := fun _ => inl {| StatusCode := StatusAccepted; Body := EmptyString |};
     readAll := fun r => inl r |}.

Definition noScheme (next : Handler) : notify :=
  {| next := next; forwardHeaders := [];
     notifyHeader := notifyHeaderKey;
     notifyUrl := "://example.com/notification";
     name := "header2post" |}.

End Tests.

(** ** What a handler wrote, read off its calls *)

(** The bytes a handler writes before it returns or panics, in order. *)
Fixpoint chunks (h : Handler) : string :=
  match h with
  | [] => EmptyString
  | DoPanic _ :: _ => EmptyString
  | DoWrite b :: h' => b +:+ chunks h'
  | _ :: h' => chunks h'
  end.

(** The status code of its last [WriteHeader] call before it returns or
    panics, or [c0] when it makes none. *)
Fixpoint lastCode (h : Handler) (c0 : Z) : Z :=
  match h with
  | [] => c0
  | DoPanic _ :: _ => c0
  | DoWriteHeader c :: h' => lastCode h' c
  | _ :: h' => lastCode h' c0
  end.

(** The header map it leaves, from the map [h0], when it returns or
    panics. *)
Fixpoint headersLeft (h : Handler) (h0 : http.Header) : http.Header :=
  match h with
  | [] => h0
  | DoPanic _ :: _ => h0
  | DoHeaderSet k v :: h' => headersLeft h' (Header_Set h0 k v)
  | DoHeaderAdd k v :: h' => headersLeft h' (Header_Add h0 k v)
  | DoHeaderDel k :: h' => headersLeft h' (Header_Del h0 k)
  | DoHeaderAssign k vs :: h' => headersLeft h' (<[k := vs]> h0)
  | _ :: h' => headersLeft h' h0
  end.

(** The value of its own panic, if it comes to one. *)
Fixpoint ownPanic (h : Handler) : option string :=
  match h with
  | [] => None
  | DoPanic v :: _ => Some v
  | _ :: h' => ownPanic h'
  end.

(** The response a handler asks for, read off its calls. *)
Definition asked (h : Handler) (h0 : http.Header) : Z * http.Header * string :=
  (lastCode h StatusOK, headersLeft h h0, chunks h).

(** The same, without the entry of the marker header. *)
Definition askedStripped (a : notify) (h0 : http.Header) : Z * http.Header * string :=
  (lastCode (next a) StatusOK,
   Header_Del (headersLeft (next a) h0) (notifyHeader a),
   chunks (next a)).

(** A sink of kind [P] takes a response of status [c], body included. *)
Definition takes (P : Policy) (c : Z) : Prop :=
  onWriteHeader P c = Accept ∧ bodyError P c = None.

Definition isPanic (c : HandlerCall) : bool :=
  match c with
  | DoPanic _ => true
  | _ => false
  end.

(** More handlers and middlewares for the examples. *)
Module Cases.

Definition twoStatuses : Handler :=
  [DoWriteHeader 404; DoWrite "not "; DoWriteHeader 500; DoWrite "found"].

Definition lateHeader : Handler :=
  [DoWriteHeader 201; DoWrite "made"; DoHeaderSet "Location" "/things/1"].

Definition lowerNames : list string :=
  ["x-test-forward-a"; "X-Test-Forward-B"; "X-Test-Forward-A"].

Definition upperNames : list string :=
  ["X-Test-Forward-B"; "X-Test-Forward-A"].

Definition withCookie : Handler :=
  [DoReqHeaderSet "Cookie" "session=1"; DoReqHeaderSet "X-Test-Forward-A" "a";
   DoHeaderAdd Tests.notifyHeaderKey Tests.helloWorld64; DoWrite "hello world"].

Definition lowerMarker (next : Handler) : notify :=
  {| next := next; forwardHeaders := [];
     notifyHeader := "x-notify";
     notifyUrl := "https://example.com/notification";
     name := "lower" |}.

End Cases.

(** ** The earlier variants of the package *)

(** The interface [http.ResponseWriter] as a handler uses it: the header
    map, which it may change, [Write] and [WriteHeader]. *)
Class ResponseWriterOps (W : Type) := {
  getHeader : W → http.Header;
  putHeader : W → http.Header → W;
  doWrite : W → string → W;
  doWriteHeader : W → Z → W * option string;
  doFlush : W → W * option string;
  doHijack : W → W;
  doOverwrite : W → string → W
}.

(** The buffer.  Its [Write] copies the bytes. *)
#[global] Instance wrapped_ops : ResponseWriterOps wrappedResponseWriter :=
  {| getHeader := Header; putHeader := withHeader;
     doWrite := Write; doWriteHeader := λ wr c, (WriteHeader wr c, None);
     doFlush := Flush; doHijack := λ wr, (Hijack wr).1;
     doOverwrite := λ wr _, wr |}.

(** The real writer.  What its [Write] returns is dropped by the handler;
    its [WriteHeader] may panic; the bytes are gone when [Write] returns. *)
#[global] Instance sink_ops : ResponseWriterOps ResponseWriter :=
  {| getHeader := header; putHeader := rw_setHeader;
     doWrite := λ rw b, (rw_Write rw b).1; doWriteHeader := rw_WriteHeader;
     doFlush := λ rw, (rw_Flush rw, None); doHijack := rw_Hijack;
     doOverwrite := λ rw _, rw |}.

(** One call of a handler on any such writer, and a whole handler. *)
Definition callOn {W} `{ResponseWriterOps W} (c : HandlerCall) (wr : W) (req : Request)
    : W * Request * option string :=
  match c with
  | DoHeaderSet k v => (putHeader wr (Header_Set (getHeader wr) k v), req, None)
  | DoHeaderAdd k v => (putHeader wr (Header_Add (getHeader wr) k v), req, None)
  | DoHeaderDel k => (putHeader wr (Header_Del (getHeader wr) k), req, None)
  | DoHeaderAssign k vs => (putHeader wr (<[k := vs]> (getHeader wr)), req, None)
  | DoWrite b => (doWrite wr b, req, None)
  | DoWriteHeader c => let '(wr, p) := doWriteHeader wr c in (wr, req, p)
  | DoReqHeaderAdd k v => (wr, withReqHeader req (Header_Add (ReqHeader req) k v), None)
  | DoReqHeaderSet k v => (wr, withReqHeader req (Header_Set (ReqHeader req) k v), None)
  | DoPanic v => (wr, req, Some v)
  | DoFlush => let '(wr, p) := doFlush wr in (wr, req, p)
  | DoHijack => (doHijack wr, req, None)
  | DoOverwrite b => (doOverwrite wr b, req, None)
  end.

Fixpoint serveOn {W} `{ResponseWriterOps W} (h : Handler) (wr : W) (req : Request)
    : W * Request * option string :=
  match h with
  | [] => (wr, req, None)
  | c :: h' =>
      match callOn c wr req with
      | (wr', req', Some v) => (wr', req', Some v)
      | (wr', req', None) => serveOn h' wr' req'
      end
  end.

(** What the three variants without forwarded headers have in common. *)
Module Earlier.

Record Config := mkConfig {
  NotifyHeader : string;
  NotifyUrl : string
}.

Definition CreateConfig : Config :=
  {| NotifyHeader := EmptyString; NotifyUrl := EmptyString |}.

Record notify := mkNotify {
  next : Handler;
  notifyHeader : string;
  notifyUrl : string;
  name : string
}.

Definition New (next : Handler) (config : Config) (name : string)
    : option notify * option string :=
  if (String.length (NotifyHeader config) =? 0)%nat then
    (None, Some "notifyheader cannot be empty")
  else if (String.length (NotifyUrl config) =? 0)%nat then
    (None, Some "notifyurl cannot be empty")
  else
    (Some {| next := next;
             name := name;
             notifyHeader := NotifyHeader config;
             notifyUrl := NotifyUrl config |},
     None).

(** The outside: [http.Post] (or [mockPost]) with its URL, content type and
    body; [io.ReadAll] (or [mockRead]); and the order in which a [range]
    goes over the entries of a header map. *)
Record Env := mkEnv {
  httpPost : string → string → string → Response + string;
  readAll : string → string + string;
  rangeOrder : http.Header → list (string * list string)
}.

Record Effects := mkEffects {
  logged : list string;
  posted : list (string * string * string);
  bodiesRead : list string
}.

Definition noEffects : Effects :=
  {| logged := []; posted := []; bodiesRead := [] |}.

Definition readBody (E : Env) (r : string) : string + string := readAll E r.

Definition post (a : notify) (E : Env) (body : string) : Response + string :=
  httpPost E (notifyUrl a) "application/json" body.

(** The lines from the base64 decoding to the end of [ServeHTTP], the same
    in the three variants, for a marker value that is not empty. *)
Definition relay (a : notify) (E : Env) (value : string) : Effects :=
  match base64.DecodeString value with
  | inr err =>
      {| logged := [Println ["base64 decode error:"; base64.Error err]];
         posted := []; bodiesRead := [] |}
  | inl data =>
      let sent := [(notifyUrl a, "application/json", data)] in
      match post a E data with
      | inr err =>
          {| logged := [Println ["post error:"; err]];
             posted := sent; bodiesRead := [] |}
      | inl resp =>
          if StatusCode resp =? StatusAccepted then
            {| logged := [Println ["notify success"]];
               posted := sent; bodiesRead := [] |}
          else
            match readBody E (Body resp) with
            | inr err =>
                {| logged := [Println ["read resp body error:"; err]];
                   posted := sent; bodiesRead := [Body resp] |}
            | inl bodyBytes =>
                {| logged := [Println ["notify failed: "; bodyBytes]];
                   posted := sent; bodiesRead := [Body resp] |}
            end
      end
  end.

Record Outcome := mkOutcome {
  sink : ResponseWriter;
  effects : Effects;
  panicked : option string
}.

(** *** header2post.go: the buffer, without forwarded headers *)

Definition deferred (a : notify) (respWriter : wrappedResponseWriter)
    : wrappedResponseWriter * option string :=
  let respWriter := withHeader respWriter (Header_Del (Header respWriter) (notifyHeader a)) in
  Flush respWriter.

Definition ServeHTTP (a : notify) (E : Env) (rw : ResponseWriter) (req : Request)
    : Outcome :=
  let respWriter := newResponseWriter rw in
  let '(respWriter, req, pan) := serveOn (next a) respWriter req in
  let eff :=
    match pan with
    | Some _ => noEffects
    | None =>
        let value := Header_Get (Header respWriter) (notifyHeader a) in
        if String.eqb value EmptyString then noEffects else relay a E value
    end in
  let '(respWriter, pan') := deferred a respWriter in
  {| sink := w respWriter; effects := eff; panicked := leaving pan pan' |}.

(** *** The variant that hands the real writer to the handler *)

Definition ServeHTTP_direct (a : notify) (E : Env) (rw : ResponseWriter) (req : Request)
    : Outcome :=
  let respWriter := rw in
  let '(respWriter, req, pan) := serveOn (next a) respWriter req in
  let eff :=
    match pan with
    | Some _ => noEffects
    | None =>
        let value := Header_Get (header respWriter) (notifyHeader a) in
        if String.eqb value EmptyString then noEffects else relay a E value
    end in
  {| sink := respWriter; effects := eff; panicked := pan |}.

(** *** header2notify.go: the writer that is copied afterwards *)

Record injectResponseWriter := mkInject {
  injHeader : http.Header;
  injCode : Z;
  injData : string
}.

Definition newInjectWriter : injectResponseWriter :=
  {| injHeader := ∅; injCode := StatusOK; injData := EmptyString |}.

(** What a slice holding [old] holds after [new] was copied into the
    array it shares, from its start on: the bytes of [new] that fit, then
    what is left of [old]. *)
Definition overwritten (old new : string) : string :=
  String.substring 0 (String.length old)
    (new +:+ String.substring (String.length new)
               (String.length old - String.length new) old).

(** [Write] keeps the slice of this call, in place of that of the calls
    before: [injData] is what that slice holds now, so that the handler
    changes it when it overwrites the slice.  The writer has no [Flush] and
    no [Hijack]: a handler finds neither method. *)
#[global] Instance inject_ops : ResponseWriterOps injectResponseWriter :=
  {| getHeader := injHeader;
     putHeader := λ i h, {| injHeader := h; injCode := injCode i; injData := injData i |};
     doWrite := λ i b, {| injHeader := injHeader i; injCode := injCode i; injData := b |};
     doWriteHeader := λ i c,
       ({| injHeader := injHeader i; injCode := c; injData := injData i |}, None);
     doFlush := λ i, (i, None);
     doHijack := λ i, i;
     doOverwrite := λ i b,
       {| injHeader := injHeader i; injCode := injCode i;
          injData := overwritten (injData i) b |} |}.

(** The inner loop of [copy]: the first value of a key is set, the others
    are added. *)
Fixpoint copyValues (key : string) (i : nat) (value : list string) (h : http.Header)
    : http.Header :=
  match value with
  | [] => h
  | v :: rest =>
      copyValues key (S i) rest
        (if (i =? 0)%nat then Header_Set h key v else Header_Add h key v)
  end.

Section Copy.

(** [http.Error], which [copy] calls when the [Write] of the real writer
    returns an error. *)
Variable http_Error : ResponseWriter → string → Z → ResponseWriter.

(** [copy]; [order] is the order in which the [range] goes over the
    headers of the writer.  A panic of the [WriteHeader] of the real writer
    leaves before the [Write]; the second component is its value, if any. *)
Definition copy (inject : injectResponseWriter) (order : list (string * list string))
    (rw : ResponseWriter) : ResponseWriter * option string :=
  let rw :=
    fold_left (λ rw kv, rw_setHeader rw (copyValues kv.1 0 kv.2 (header rw))) order rw in
  match rw_WriteHeader rw (injCode inject) with
  | (rw, Some v) => (rw, Some v)
  | (rw, None) =>
      let '(rw, err) := rw_Write rw (injData inject) in
      match err with
      | Some e => (http_Error rw e 500, None)
      | None => (rw, None)
      end
  end.

(** [ServeHTTP] of header2notify.go.  Nothing is deferred: a panic of the
    handler leaves at once, and only the branch of the empty marker value
    copies the response to the real writer. *)
Definition ServeHTTP_inject (a : notify) (E : Env) (rw : ResponseWriter) (req : Request)
    : Outcome :=
  let respWriter := newInjectWriter in
  let '(respWriter, req, pan) := serveOn (next a) respWriter req in
  match pan with
  | Some v => {| sink := rw; effects := noEffects; panicked := Some v |}
  | None =>
      let value := Header_Get (injHeader respWriter) (notifyHeader a) in
      if String.eqb value EmptyString then
        let respWriter :=
          {| injHeader := Header_Del (injHeader respWriter) (notifyHeader a);
             injCode := injCode respWriter; injData := injData respWriter |} in
        let '(rw, pan') := copy respWriter (rangeOrder E (injHeader respWriter)) rw in
        {| sink := rw; effects := noEffects; panicked := pan' |}
      else
        {| sink := rw; effects := relay a E value; panicked := None |}
  end.

End Copy.

End Earlier.

(** Middlewares and environments of the earlier variants for the examples. *)
Module EarlierCases.

Definition middleware (next : Handler) : Earlier.notify :=
  {| Earlier.next := next;
     Earlier.notifyHeader := "X-Notify";
     Earlier.notifyUrl := "https://example.com/notification";
     Earlier.name := "header2post" |}.

Definition mockPostError : Earlier.Env :=
  {| Earlier.httpPost := λ _ _ _, inr "post error";
     Earlier.readAll := λ r, inl r;
     Earlier.rangeOrder := map_to_list |}.

Definition mockAccepted : Earlier.Env :=
  {| Earlier.httpPost := λ _ _ _, inl {| StatusCode := StatusAccepted; Body := EmptyString |};
     Earlier.readAll := λ r, inl r;
     Earlier.rangeOrder := map_to_list |}.

Definition twoWrites : Handler :=
  [DoHeaderSet "content-type" "text/plain"; DoHeaderAdd "Test" "1"; DoHeaderAdd "Test" "2";
   DoWriteHeader 201; DoWrite "hello "; DoWrite "world"].

(** A stand-in for [http.Error] where the examples do not reach it. *)
Definition noError (rw : ResponseWriter) (msg : string) (code : Z) : ResponseWriter := rw.

(** [http.Error] of net/http: two headers set, one deleted, [WriteHeader],
    and the message with a line feed written. *)
Definition httpError (rw : ResponseWriter) (msg : string) (code : Z) : ResponseWriter :=
  let h := Header_Del (header rw) "Content-Length" in
  let h := Header_Set h "Content-Type" "text/plain; charset=utf-8" in
  let h := Header_Set h "X-Content-Type-Options" "nosniff" in
  let rw := rw_setHeader rw h in
  let rw := (rw_WriteHeader rw code).1 in
  (rw_Write rw (msg +:+ String (ascii_of_nat 10) EmptyString)).1.

End EarlierCases.

(** ** Notions for the variant that copies *)

(** The character that the loop of [canonicalize] writes for [c]. *)
Definition canonicalChar (upper : bool) (c : ascii) : ascii :=
  if (upper && in_range 97 122 c)%bool then byte_of (N_of_ascii c - textproto.toLower)
  else if (negb upper && in_range 65 90 c)%bool
       then byte_of (N_of_ascii c + textproto.toLower)
  else c.

Definition isAssign (c : HandlerCall) : bool :=
  match c with
  | DoHeaderAssign _ _ => true
  | _ => false
  end.

Definition isWrite (c : HandlerCall) : bool :=
  match c with
  | DoWrite _ => true
  | _ => false
  end.

(** Every name of the map is in canonical form. *)
Definition canonicalKeys (m : http.Header) : Prop :=
  ∀ k vs, m !! k = Some vs → textproto.CanonicalMIMEHeaderKey k = k.

(** The writer of header2notify.go as the handler leaves it. *)
Definition injected (a : Earlier.notify) (req : Request) : Earlier.injectResponseWriter :=
  (serveOn (Earlier.next a) Earlier.newInjectWriter req).1.1.

Definition injectedPanic (a : Earlier.notify) (req : Request) : option string :=
  (serveOn (Earlier.next a) Earlier.newInjectWriter req).2.

(** The outer loop of [copy], on the header map alone. *)
Definition copyAll (order : list (string * list string)) (h : http.Header) : http.Header :=
  fold_left (λ h kv, Earlier.copyValues kv.1 0 kv.2 h) order h.

(** ** Sentences of the specification, read literally *)

(** The marker header is never in the headers the client receives, however
    its name is spelled there: the names of HTTP headers are the same without
    regard to case. *)
Definition marker_never_delivered_as_stated (a : notify) (E : Env) (rw : ResponseWriter)
    (req : Request) : Prop :=
  ∀ c h b, delivered (sink (ServeHTTP a E rw req)) = Some (c, h, b) →
    ∀ k, textproto.CanonicalMIMEHeaderKey k
         = textproto.CanonicalMIMEHeaderKey (notifyHeader a) →
      h !! k = None.

(** A marker value that is not base64: the decode error is logged, nothing
    is posted, and the client receives what the handler asked for, without
    the marker header. *)
Definition decode_error_as_stated (a : notify) (E : Env) (h0 : http.Header)
    (req : Request) : Prop :=
  ∀ err, markerValue a (fresh h0) req ≠ EmptyString →
    base64.DecodeString (markerValue a (fresh h0) req) = inr err →
    logged (effects (ServeHTTP a E (fresh h0) req))
      = ["base64 decode error: " +:+ base64.Error err]
    ∧ posted (effects (ServeHTTP a E (fresh h0) req)) = []
    ∧ delivered (sink (ServeHTTP a E (fresh h0) req)) = Some (askedStripped a h0).

(** A notification request that cannot be built: the error is logged,
    nothing is posted, and the client receives what the handler asked for,
    without the marker header. *)
Definition request_error_as_stated (a : notify) (E : Env) (h0 : http.Header)
    (req : Request) : Prop :=
  ∀ data err, markerValue a (fresh h0) req ≠ EmptyString →
    base64.DecodeString (markerValue a (fresh h0) req) = inl data →
    parseURL E (notifyUrl a) = Some err →
    logged (effects (ServeHTTP a E (fresh h0) req))
      = ["create http request error: " +:+ err]
    ∧ posted (effects (ServeHTTP a E (fresh h0) req)) = []
    ∧ delivered (sink (ServeHTTP a E (fresh h0) req)) = Some (askedStripped a h0).

(** The number of [Flush] calls of the buffer that reached the sink: each
    makes one [WriteHeader] call on it, and nothing else does. *)
Definition flushes (rw : ResponseWriter) : nat :=
  length (List.filter isWriteHeader (calls rw)).

(** The buffer is flushed exactly once in a request. *)
Definition flush_once_as_stated (a : notify) (E : Env) (rw : ResponseWriter)
    (req : Request) : Prop :=
  flushes (sink (ServeHTTP a E rw req)) = S (flushes rw).

(** Handlers that stream, and other cases the tests do not have. *)
Module Streaming.

Definition flushesMarker : Handler :=
  [DoHeaderAdd Tests.notifyHeaderKey Tests.helloWorld64;
   DoWriteHeader 400; DoWrite "hello"; DoFlush; DoWrite " world"].

Definition flushesInvalid : Handler :=
  [DoHeaderAdd Tests.notifyHeaderKey "invalid-base64-value";
   DoWrite "hello world"; DoFlush].

Definition quietInvalid : Handler :=
  [DoHeaderAdd Tests.notifyHeaderKey "invalid-base64-value";
   DoHeaderSet "content-type" "text/plain";
   DoWriteHeader 400; DoWrite "hello "; DoWrite "world"].

Definition quietValid : Handler :=
  [DoHeaderAdd Tests.notifyHeaderKey Tests.helloWorld64;
   DoHeaderSet "content-type" "text/plain";
   DoWriteHeader 400; DoWrite "hello "; DoWrite "world"].

Definition quietUnmarked : Handler :=
  [DoHeaderSet "content-type" "text/plain";
   DoWriteHeader 404; DoWrite "not "; DoWrite "found"].

Definition quietPanic : Handler :=
  [DoHeaderAdd Tests.notifyHeaderKey Tests.helloWorld64;
   DoHeaderSet "content-type" "text/plain";
   DoWriteHeader 500; DoWrite "hello"; DoPanic "boom"; DoWrite " world"].

(** The marker written into the map itself, under a name that is not in
    canonical form. *)
Definition rawKeyMarker : Handler :=
  [DoHeaderAssign "x-notify" [Tests.helloWorld64]; DoWriteHeader 400; DoWrite "hello world"].

Definition zeroCode : Handler :=
  [DoWriteHeader 0; DoWrite "hello world"].

Definition zeroThenMarker : Handler :=
  [DoWriteHeader 0; DoHeaderAdd Tests.notifyHeaderKey Tests.helloWorld64;
   DoWrite "hello world"].

Definition noContent : Handler :=
  [DoWriteHeader 204; DoWrite "hello world"].

(** The incoming request of the test of forwarded headers, with the two
    headers on it from the start. *)
Definition reqAB : Request :=
  {| Method := "GET"; URL := "/";
     ReqHeader := {[ "X-Test-Forward-A" := ["a"]; "X-Test-Forward-B" := ["b"] ]};
     ReqBody := EmptyString |}.

(** The copy loop of a handler: one slice, written and then filled again. *)
Definition reusesSlice : Handler :=
  [DoWriteHeader 201; DoWrite "hello world"; DoOverwrite "XXXXXXXXXXX"].

End Streaming.

(** ** Invariants *)

(** The buffer of a handler that sets no status code, on the recorder of
    the tests: the code is 200, and so is the status line if one was
    written. *)
Definition sends200 (wr : wrappedResponseWriter) : Prop :=
  code wr = StatusOK ∧ policy (w wr) = recorder ∧ hijacked (w wr) = false
  ∧ (wrote (w wr) = None ∨ ∃ hd, wrote (w wr) = Some (StatusOK, hd)).

(** The sink refuses none of the status codes a handler sets, nor 200. *)
Definition refusesNone (P : Policy) (h : Handler) : Prop :=
  ∀ code, In (DoWriteHeader code) h ∨ code = StatusOK →
    ∀ v, onWriteHeader P code ≠ Refuse v.

Definition isOverwrite (c : HandlerCall) : bool :=
  match c with
  | DoOverwrite _ => true
  | _ => false
  end.

(** Cases on everything a call of the sink looks at. *)
Ltac sink_cases :=
  repeat match goal with
         | |- context [if ?b then _ else _] => destruct b eqn:?
         | |- context [match ?x with _ => _ end] => destruct x eqn:?
         end.

(** * Properties *)

Example canonical_lower :
  textproto.CanonicalMIMEHeaderKey "x-notify" = "X-Notify".
Proof. reflexivity. Qed.

Example canonical_space :
  textproto.CanonicalMIMEHeaderKey "x notify" = "x notify".
Proof. reflexivity. Qed.

Example trim_both : strings.TrimSpace "  a b  " = "a b".
Proof. reflexivity. Qed.

Example decode_hello :
  base64.DecodeString "aGVsbG8gd29ybGQ=" = inl "hello world".
Proof. reflexivity. Qed.

Example decode_invalid :
  base64.DecodeString "invalid-base64-value" = inr (base64.Corrupt 7).
Proof. reflexivity. Qed.

Example decode_nopad :
  base64.DecodeString "aGVsbG8gd29ybGQ" = inr (base64.Corrupt 12).
Proof. reflexivity. Qed.

Example decode_error_text :
  base64.Error (base64.Corrupt 7) = "illegal base64 data at input byte 7".
Proof. reflexivity. Qed.

(** ** The real writer and the buffer *)

Lemma append_assoc (s1 s2 s3 : string) : (s1 +:+ s2) +:+ s3 = s1 +:+ (s2 +:+ s3).
Proof.
  induction s1 as [|c s1 IH]; [reflexivity|].
  change (String c ((s1 +:+ s2) +:+ s3) = String c (s1 +:+ (s2 +:+ s3))).
  by rewrite IH.
Qed.

Lemma append_empty_r (s : string) : s +:+ EmptyString = s.
Proof.
  induction s as [|c s IH]; [reflexivity|].
  change (String c (s +:+ EmptyString) = String c s). by rewrite IH.
Qed.

Lemma rw_WriteHeader_kept rw c :
  header (rw_WriteHeader rw c).1 = header rw
  ∧ policy (rw_WriteHeader rw c).1 = policy rw
  ∧ hijacked (rw_WriteHeader rw c).1 = hijacked rw
  ∧ written (rw_WriteHeader rw c).1 = written rw.
Proof. unfold rw_WriteHeader; cbn. sink_cases; auto. Qed.

Lemma rw_Write_kept rw b :
  header (rw_Write rw b).1 = header rw
  ∧ policy (rw_Write rw b).1 = policy rw
  ∧ hijacked (rw_Write rw b).1 = hijacked rw.
Proof. unfold rw_Write; cbn. sink_cases; auto. Qed.

Lemma io_Copy_kept rw b :
  header (io_Copy rw b).1 = header rw
  ∧ policy (io_Copy rw b).1 = policy rw
  ∧ hijacked (io_Copy rw b).1 = hijacked rw.
Proof.
  unfold io_Copy. destruct b; [auto|].
  pose proof (rw_Write_kept rw (String a b)) as Hk.
  destruct (rw_Write rw (String a b)) as [rw' [e|]]; exact Hk.
Qed.

Lemma Flush_kept wr :
  header (w (Flush wr).1) = header (w wr)
  ∧ policy (w (Flush wr).1) = policy (w wr)
  ∧ hijacked (w (Flush wr).1) = hijacked (w wr)
  ∧ code (Flush wr).1 = code wr.
Proof.
  unfold Flush.
  pose proof (rw_WriteHeader_kept (w wr) (code wr)) as (Hh & Hp & Hj & _).
  destruct (rw_WriteHeader (w wr) (code wr)) as [rw' [v|]]; cbn in *; [auto|].
  pose proof (io_Copy_kept rw' (buf wr)) as (Hh' & Hp' & Hj').
  destruct (io_Copy rw' (buf wr)) as [rw'' rest]; cbn in *.
  repeat split; congruence.
Qed.

(** ** ServeHTTP in terms of what the handler left *)

Lemma ServeHTTP_eq a E rw req :
  ServeHTTP a E rw req =
  {| sink := w (deferred a (handled a rw req)).1;
     effects :=
       match handlerPanic a rw req with
       | Some _ => noEffects
       | None => notification a E (handled a rw req) (handledRequest a rw req)
       end;
     panicked := leaving (handlerPanic a rw req) (deferred a (handled a rw req)).2 |}.
Proof.
  unfold ServeHTTP, handled, handledRequest, handlerPanic.
  destruct (Handler_ServeHTTP (next a) (newResponseWriter rw) req) as [[wr req'] pan].
  cbn [fst snd]. destruct (deferred a wr) as [wr' pan']. reflexivity.
Qed.

Lemma ServeHTTP_sink a E rw req :
  sink (ServeHTTP a E rw req) = w (deferred a (handled a rw req)).1.
Proof. by rewrite ServeHTTP_eq. Qed.

(** ** The outcome of the notification is invisible to the client *)

(** The sink that [ServeHTTP] leaves does not depend on the environment at
    all. *)
Lemma sink_independent a E1 E2 rw req :
  sink (ServeHTTP a E1 rw req) = sink (ServeHTTP a E2 rw req).
Proof. by rewrite !ServeHTTP_sink. Qed.

(** C1. When the marker header that the handler left holds valid base64,
    two runs that differ in the environment only (URL parsing, transport
    error, status 202 or another, body read or read error) deliver the same
    status code, headers and body to the client, and leave the same sink. *)
Theorem notification_outcome_invisible a E1 E2 rw req data :
  markerValue a rw req ≠ EmptyString →
  base64.DecodeString (markerValue a rw req) = inl data →
  delivered (sink (ServeHTTP a E1 rw req)) = delivered (sink (ServeHTTP a E2 rw req))
  ∧ sink (ServeHTTP a E1 rw req) = sink (ServeHTTP a E2 rw req).
Proof.
  intros _ _. rewrite (sink_independent a E1 E2). split; reflexivity.
Qed.

Lemma notification_outcome_invisible_witness :
  let a := Tests.middleware Tests.validBadRequest [] in
  (logged (effects (ServeHTTP a Tests.mockAccepted Tests.recorder Tests.req))
     = ["notify success"]
   ∧ logged (effects (ServeHTTP a Tests.mockPostError Tests.recorder Tests.req))
     = ["post error: post error"])
  ∧ delivered (sink (ServeHTTP a Tests.mockAccepted Tests.recorder Tests.req))
    = Some (400, ∅, "hello world")
  ∧ delivered (sink (ServeHTTP a Tests.mockAccepted Tests.recorder Tests.req))
    = delivered (sink (ServeHTTP a Tests.mockPostError Tests.recorder Tests.req)).
Proof.
  split; [split; vm_compute; reflexivity|].
  split; [vm_compute; reflexivity|].
  apply (notification_outcome_invisible
           (Tests.middleware Tests.validBadRequest [])
           Tests.mockAccepted Tests.mockPostError Tests.recorder Tests.req
           "hello world").
  - vm_compute. discriminate.
  - vm_compute. reflexivity.
Defined.

(** ** Names in canonical form *)

Lemma canonicalChar_stable u c :
  textproto.validHeaderFieldByte c = true →
  textproto.validHeaderFieldByte (canonicalChar u c) = true
  ∧ canonicalChar u (canonicalChar u c) = canonicalChar u c.
Proof.
  destruct u, c as [[] [] [] [] [] [] [] []]; vm_compute;
    first [discriminate | intros _; split; reflexivity].
Qed.

Lemma canonicalize_stable s : ∀ u,
  textproto.allValid s = true →
  textproto.allValid (textproto.canonicalize u s) = true
  ∧ textproto.canonicalize u (textproto.canonicalize u s) = textproto.canonicalize u s.
Proof.
  induction s as [|c s IH]; intros u Hv; [split; reflexivity|].
  cbn [textproto.allValid] in Hv. apply andb_true_iff in Hv as [Hc Hs].
  change (textproto.canonicalize u (String c s))
    with (String (canonicalChar u c)
            (textproto.canonicalize (is_byte 45 (canonicalChar u c)) s)).
  destruct (canonicalChar_stable u c Hc) as [Hc1 Hc2].
  destruct (IH (is_byte 45 (canonicalChar u c)) Hs) as [IH1 IH2].
  split.
  - cbn [textproto.allValid]. by rewrite Hc1, IH1.
  - change (textproto.canonicalize u (String ?x ?t))
      with (String (canonicalChar u x)
              (textproto.canonicalize (is_byte 45 (canonicalChar u x)) t)).
    by rewrite Hc2, IH2.
Qed.

Lemma CanonicalMIMEHeaderKey_stable k :
  textproto.CanonicalMIMEHeaderKey (textproto.CanonicalMIMEHeaderKey k)
  = textproto.CanonicalMIMEHeaderKey k.
Proof.
  unfold textproto.CanonicalMIMEHeaderKey.
  destruct (textproto.allValid k) eqn:Hv; [|by rewrite Hv].
  destruct (canonicalize_stable k true Hv) as [-> ->]. reflexivity.
Qed.

Lemma canonicalKeys_empty : canonicalKeys ∅.
Proof. intros k vs Hk. by rewrite lookup_empty in Hk. Qed.

Lemma canonicalKeys_Del (m : http.Header) key :
  canonicalKeys m → canonicalKeys (Header_Del m key).
Proof.
  intros Hm k vs. unfold Header_Del. rewrite lookup_delete.
  case_decide; [discriminate|apply Hm].
Qed.

Lemma headersLeft_canonical h : ∀ (m : http.Header),
  existsb isAssign h = false →
  canonicalKeys m →
  canonicalKeys (headersLeft h m).
Proof.
  induction h as [|c h IH]; intros m Ha Hk; [exact Hk|].
  cbn in Ha. apply orb_false_elim in Ha as [Hc Ha].
  destruct c; cbn in Hc; try discriminate; cbn [headersLeft];
    try (apply IH; [assumption|]); try exact Hk;
    intros k' vs; unfold Header_Set, Header_Add, Header_Del.
  - rewrite lookup_insert. case_decide as Hd; [|by apply Hk].
    intros _. subst k'. apply CanonicalMIMEHeaderKey_stable.
  - rewrite lookup_insert. case_decide as Hd; [|by apply Hk].
    intros _. subst k'. apply CanonicalMIMEHeaderKey_stable.
  - rewrite lookup_delete. case_decide; [discriminate|by apply Hk].
Qed.

(** ** A handler that leaves the sending to the middleware *)

Lemma wrapped_eta wr :
  {| w := rw_setHeader (w wr) (Header wr); buf := buf wr; code := code wr |} = wr.
Proof. by destruct wr as [[] ? ?]. Qed.

(** What a quiet handler leaves: the sink as it was but for its header
    map, the bytes and the status code it asked for, its own panic. *)
Lemma quiet_handler h : ∀ wr req,
  quiet h = true →
  (Handler_ServeHTTP h wr req).1.1
  = {| w := rw_setHeader (w wr) (headersLeft h (Header wr));
       buf := buf wr +:+ chunks h;
       code := lastCode h (code wr) |}
  ∧ (Handler_ServeHTTP h wr req).2 = ownPanic h.
Proof.
  induction h as [|c h IH]; intros wr req Hq.
  - cbn. by rewrite append_empty_r, wrapped_eta.
  - cbn in Hq. apply andb_true_iff in Hq as [Hc Hq].
    destruct c; cbn in Hc; try discriminate;
      cbn [Handler_ServeHTTP handlerCall headersLeft chunks lastCode ownPanic];
      try (destruct (IH (withHeader wr (Header_Set (Header wr) k v)) req Hq) as [-> ->]);
      try (destruct (IH (withHeader wr (Header_Add (Header wr) k v)) req Hq) as [-> ->]);
      try (destruct (IH (withHeader wr (Header_Del (Header wr) k)) req Hq) as [-> ->]);
      try (destruct (IH (withHeader wr (<[k:=vs]> (Header wr))) req Hq) as [-> ->]);
      try (destruct (IH (Write wr b) req Hq) as [-> ->]);
      try (destruct (IH (WriteHeader wr code) req Hq) as [-> ->]);
      try (destruct (IH wr (withReqHeader req (Header_Add (ReqHeader req) k v)) Hq)
             as [-> ->]);
      try (destruct (IH wr (withReqHeader req (Header_Set (ReqHeader req) k v)) Hq)
             as [-> ->]);
      try (destruct (IH wr req Hq) as [-> ->]);
      cbn; rewrite ?append_assoc, ?append_empty_r, ?wrapped_eta; auto.
Qed.

Lemma quiet_handled a P h0 req :
  quiet (next a) = true →
  handled a (freshOf P h0) req
  = {| w := freshOf P (headersLeft (next a) h0);
       buf := chunks (next a);
       code := lastCode (next a) StatusOK |}
  ∧ handlerPanic a (freshOf P h0) req = ownPanic (next a).
Proof.
  intros Hq. unfold handled, handlerPanic.
  destruct (quiet_handler (next a) (newResponseWriter (freshOf P h0)) req Hq) as [-> ->].
  split; reflexivity.
Qed.

Lemma quiet_sink a rw req :
  quiet (next a) = true →
  w (handled a rw req) = rw_setHeader rw (Header (handled a rw req)).
Proof.
  intros Hq. unfold handled.
  destruct (quiet_handler (next a) (newResponseWriter rw) req Hq) as [-> _].
  reflexivity.
Qed.

(** The deferred function on a sink that takes the response. *)
Lemma deferred_takes a P hd b c :
  takes P c →
  delivered (w (deferred a {| w := freshOf P hd; buf := b; code := c |}).1)
    = Some (c, Header_Del hd (notifyHeader a), b)
  ∧ (deferred a {| w := freshOf P hd; buf := b; code := c |}).2 = None
  ∧ calls (w (deferred a {| w := freshOf P hd; buf := b; code := c |}).1)
    = flushCalls {| w := freshOf P hd; buf := b; code := c |}.
Proof.
  intros [Hc Hb]. unfold deferred, Flush, rw_WriteHeader, io_Copy, rw_Write, flushCalls.
  cbn. rewrite Hc. cbn. destruct b; cbn; [auto|]. rewrite Hb. cbn. auto.
Qed.

(** What a quiet handler asked for is what a sink that takes it delivers. *)
Lemma quiet_delivered a E P h0 req :
  quiet (next a) = true →
  takes P (lastCode (next a) StatusOK) →
  delivered (sink (ServeHTTP a E (freshOf P h0) req)) = Some (askedStripped a h0)
  ∧ panicked (ServeHTTP a E (freshOf P h0) req) = ownPanic (next a)
  ∧ calls (sink (ServeHTTP a E (freshOf P h0) req))
    = CallWriteHeader (lastCode (next a) StatusOK) ::
      match chunks (next a) with
      | EmptyString => []
      | String _ _ => [CallWrite (chunks (next a))]
      end.
Proof.
  intros Hq Ht. rewrite ServeHTTP_eq. cbn [sink panicked].
  destruct (quiet_handled a P h0 req Hq) as [-> ->].
  destruct (deferred_takes a P (headersLeft (next a) h0) (chunks (next a))
              (lastCode (next a) StatusOK) Ht) as (-> & -> & ->).
  repeat split.
Qed.

(** Whatever the deferred function makes the sink deliver, when the status
    line was not written before, has the headers of the buffer without the
    marker header. *)
Lemma deferred_headers a wr c h b :
  wrote (w wr) = None →
  delivered (w (deferred a wr).1) = Some (c, h, b) →
  h = Header_Del (Header wr) (notifyHeader a).
Proof.
  intros Hw. unfold deferred, Flush, rw_WriteHeader, io_Copy, rw_Write, delivered, commit.
  destruct wr as [[hd wo wn cs im hj P] bf cd]. cbn in Hw. subst wo. cbn.
  destruct hj; cbn.
  { destruct bf; cbn; discriminate. }
  destruct (onWriteHeader P cd); cbn.
  - destruct bf; cbn; [congruence|].
    destruct (bodyError P cd); cbn; congruence.
  - destruct bf; cbn; [discriminate|].
    destruct (bodyError P StatusOK); cbn; congruence.
  - discriminate.
Qed.

Lemma deferred_header a wr :
  header (w (deferred a wr).1) = Header_Del (Header wr) (notifyHeader a).
Proof.
  unfold deferred.
  destruct (Flush_kept (withHeader wr (Header_Del (Header wr) (notifyHeader a))))
    as (-> & _). reflexivity.
Qed.

(** The calls of the deferred function on the sink: one [WriteHeader], then
    at most one [Write]. *)
Lemma deferred_calls a wr :
  ∃ tail, calls (w (deferred a wr).1)
          = (calls (w wr) ++ CallWriteHeader (code wr) :: tail)%list
        ∧ (tail = [] ∨ tail = [CallWrite (buf wr)]).
Proof.
  unfold deferred, Flush, rw_WriteHeader, io_Copy, rw_Write.
  destruct wr as [[hd wo wn cs im hj P] bf cd]. cbn.
  destruct hj; cbn.
  { destruct bf; cbn; [exists []; auto|].
    exists [CallWrite (String a0 bf)]. rewrite <- app_assoc. auto. }
  destruct wo as [x|]; cbn.
  { destruct bf; cbn; [exists []; auto|].
    destruct (bodyError P _); cbn;
      exists [CallWrite (String a0 bf)]; rewrite <- app_assoc; auto. }
  destruct (onWriteHeader P cd); cbn.
  - destruct bf; cbn; [exists []; auto|].
    destruct (bodyError P _); cbn;
      exists [CallWrite (String a0 bf)]; rewrite <- app_assoc; auto.
  - destruct bf; cbn; [exists []; auto|].
    destruct (bodyError P _); cbn;
      exists [CallWrite (String a0 bf)]; rewrite <- app_assoc; auto.
  - exists []. auto.
Qed.

(** ** The marker header and the client *)

Lemma Header_Del_lookup (h : http.Header) key :
  Header_Del h key !! textproto.CanonicalMIMEHeaderKey key = None.
Proof. apply lookup_delete_eq. Qed.

Lemma Header_Del_Get (h : http.Header) key :
  Header_Get (Header_Del h key) key = EmptyString.
Proof. unfold Header_Get. by rewrite Header_Del_lookup. Qed.


(** It fails in a second way: an entry that the handler writes into the
    header map under a name that is not in canonical form is neither read
    nor deleted, so that nothing is posted and the client receives it. *)
Example marker_delivered_under_raw_key :
  delivered (sink (ServeHTTP (Tests.middleware Streaming.rawKeyMarker [])
                     Tests.mockAccepted (fresh ∅) Tests.req))
    = Some (400, {[ "x-notify" := ["aGVsbG8gd29ybGQ="] ]}, "hello world")
  ∧ effects (ServeHTTP (Tests.middleware Streaming.rawKeyMarker [])
               Tests.mockAccepted (fresh ∅) Tests.req) = noEffects.
Proof. split; vm_compute; reflexivity. Qed.



(** ** One flush by the middleware *)




(** A status code that the sink refuses: the deferred [Flush] panics in
    [WriteHeader], before the copy, so that the client receives nothing and
    [ServeHTTP] panics although the handler returned. *)
Example refused_code_panics_in_flush :
  delivered (sink (ServeHTTP (Tests.middleware Streaming.zeroCode [])
                     Tests.mockAccepted (fresh ∅) Tests.req)) = None
  ∧ calls (sink (ServeHTTP (Tests.middleware Streaming.zeroCode [])
                   Tests.mockAccepted (fresh ∅) Tests.req)) = [CallWriteHeader 0]
  ∧ panicked (ServeHTTP (Tests.middleware Streaming.zeroCode [])
                Tests.mockAccepted (fresh ∅) Tests.req)
    = Some "invalid WriteHeader code 0".
Proof. repeat split; vm_compute; reflexivity. Qed.

(** A status that allows no body: the server takes the status line and
    refuses the bytes, and the error of the copy is dropped. *)
Example no_body_with_204 :
  delivered (sink (ServeHTTP (Tests.middleware Streaming.noContent [])
                     Tests.mockAccepted (freshOf server ∅) Tests.req))
    = Some (204, ∅, EmptyString)
  ∧ calls (sink (ServeHTTP (Tests.middleware Streaming.noContent [])
                   Tests.mockAccepted (freshOf server ∅) Tests.req))
    = [CallWriteHeader 204; CallWrite "hello world"]
  ∧ panicked (ServeHTTP (Tests.middleware Streaming.noContent [])
                Tests.mockAccepted (freshOf server ∅) Tests.req) = None.
Proof. repeat split; vm_compute; reflexivity. Qed.
(** ** The default status code *)

Lemma Flush_sends200 wr :
  sends200 wr →
  (Flush wr).2 = None ∧ sends200 (Flush wr).1
  ∧ ∃ hd, wrote (w (Flush wr).1) = Some (StatusOK, hd).
Proof.
  destruct wr as [[hd wo wn cs im hj P] bf cd].
  intros (Hc & HP & Hj & Hw). cbn in Hc, HP, Hj, Hw. subst cd P hj.
  unfold Flush, rw_WriteHeader, io_Copy, rw_Write, sends200, commit. cbn.
  destruct Hw as [-> | [hd' ->]]; cbn; destruct bf; cbn; eauto 10.
Qed.

Lemma handlerCall_sends200 c wr req :
  setsStatus c = false → sends200 wr → sends200 (handlerCall c wr req).1.1.
Proof.
  intros Hc Hs. destruct c; cbn in Hc; try discriminate; cbn; try exact Hs.
  - pose proof (Flush_sends200 wr Hs) as (_ & Hs' & _).
    by destruct (Flush wr).
  - destruct Hs as (? & HP & ? & ?). unfold Hijack. rewrite HP. cbn. by repeat split.
Qed.

Lemma Handler_ServeHTTP_sends200 h : ∀ wr req,
  existsb setsStatus h = false → sends200 wr →
  sends200 (Handler_ServeHTTP h wr req).1.1.
Proof.
  induction h as [|c h IH]; intros wr req Hh Hs; [exact Hs|].
  cbn in Hh. apply orb_false_elim in Hh as [Hc Hh].
  pose proof (handlerCall_sends200 c wr req Hc Hs) as Hs'.
  cbn [Handler_ServeHTTP].
  destruct (handlerCall c wr req) as [[wr' req'] [v|]]; cbn in Hs' |- *; auto.
Qed.



(** ** The notification path, case by case *)

Lemma ServeHTTP_effects a E rw req :
  handlerPanic a rw req = None →
  effects (ServeHTTP a E rw req)
  = notification a E (handled a rw req) (handledRequest a rw req).
Proof. intros Hp. rewrite ServeHTTP_eq. cbn. by rewrite Hp. Qed.

Lemma eqb_empty_false (s : string) : s ≠ EmptyString → String.eqb s EmptyString = false.
Proof. intros H. by apply String.eqb_neq. Qed.

Lemma notification_empty a E wr req :
  Header_Get (Header wr) (notifyHeader a) = EmptyString →
  notification a E wr req = noEffects.
Proof. intros Hv. unfold notification. rewrite Hv. reflexivity. Qed.

Lemma notification_decode_error a E wr req err :
  base64.DecodeString (Header_Get (Header wr) (notifyHeader a)) = inr err →
  notification a E wr req
  = logOnly ("base64 decode error: " +:+ base64.Error err).
Proof.
  intros Hd. unfold notification.
  destruct (String.eqb _ EmptyString) eqn:Hv.
  - apply String.eqb_eq in Hv. rewrite Hv in Hd. discriminate Hd.
  - rewrite Hd. reflexivity.
Qed.

Lemma notification_request_error a E wr req data err :
  Header_Get (Header wr) (notifyHeader a) ≠ EmptyString →
  base64.DecodeString (Header_Get (Header wr) (notifyHeader a)) = inl data →
  parseURL E (notifyUrl a) = Some err →
  notification a E wr req
  = logOnly ("create http request error: " +:+ err).
Proof.
  intros Hv Hd Hu. unfold notification, NewRequest.
  rewrite (eqb_empty_false _ Hv), Hd, Hu. reflexivity.
Qed.

Lemma notification_posted a E wr req data :
  Header_Get (Header wr) (notifyHeader a) ≠ EmptyString →
  base64.DecodeString (Header_Get (Header wr) (notifyHeader a)) = inl data →
  parseURL E (notifyUrl a) = None →
  notification a E wr req =
  match roundTrip E (outgoing a req data) with
  | inr err =>
      {| logged := ["post error: " +:+ err];
         posted := [outgoing a req data]; bodiesRead := [] |}
  | inl resp =>
      if StatusCode resp =? StatusAccepted then
        {| logged := ["notify success"];
           posted := [outgoing a req data]; bodiesRead := [] |}
      else
        match readAll E (Body resp) with
        | inr err =>
            {| logged := ["read resp body error: " +:+ err];
               posted := [outgoing a req data]; bodiesRead := [Body resp] |}
        | inl bodyBytes =>
            {| logged := ["notify failed:  " +:+ bodyBytes];
               posted := [outgoing a req data]; bodiesRead := [Body resp] |}
        end
  end.
Proof.
  intros Hv Hd Hu. unfold notification, NewRequest, post, readBody, outgoing.
  rewrite (eqb_empty_false _ Hv), Hd, Hu. reflexivity.
Qed.

(** ** Construction *)

(** C4. [New] returns the error of the marker-header name, and no handler,
    when that name is empty; an error, and no handler, when the URL is empty
    (the error of the URL when the name is not empty as well); and the
    handler holding the three fields of the configuration, and no error,
    when both are non-empty. *)
Theorem New_contract next config name :
  (NotifyHeader config = EmptyString →
     New next config name = (None, Some "notifyheader cannot be empty"))
  ∧ (NotifyUrl config = EmptyString →
       (New next config name).1 = None ∧ is_Some (New next config name).2
       ∧ (NotifyHeader config ≠ EmptyString →
            New next config name = (None, Some "notifyurl cannot be empty")))
  ∧ (NotifyHeader config ≠ EmptyString → NotifyUrl config ≠ EmptyString →
       New next config name
       = (Some {| next := next; forwardHeaders := ForwardHeaders config;
                  notifyHeader := NotifyHeader config;
                  notifyUrl := NotifyUrl config; name := name |}, None)).
Proof.
  unfold New.
  destruct (NotifyHeader config) as [|c1 s1], (NotifyUrl config) as [|c2 s2]; cbn;
    repeat split; intros; try congruence; eauto.
Qed.

Lemma New_contract_witness :
  New Tests.emptyHeader
      {| NotifyHeader := EmptyString; NotifyUrl := "http://localhost:8000";
         ForwardHeaders := [] |} "empty notify header"
    = (None, Some "notifyheader cannot be empty")
  ∧ New Tests.emptyHeader
      {| NotifyHeader := "X-Notify"; NotifyUrl := EmptyString;
         ForwardHeaders := [] |} "empty notify url"
    = (None, Some "notifyurl cannot be empty")
  ∧ New Tests.emptyHeader (Tests.config []) "header2post"
    = (Some (Tests.middleware Tests.emptyHeader []), None).
Proof.
  split; [|split].
  - apply (New_contract Tests.emptyHeader
             {| NotifyHeader := EmptyString; NotifyUrl := "http://localhost:8000";
                ForwardHeaders := [] |} "empty notify header").
    reflexivity.
  - apply (New_contract Tests.emptyHeader
             {| NotifyHeader := "X-Notify"; NotifyUrl := EmptyString;
                ForwardHeaders := [] |} "empty notify url");
      [reflexivity | discriminate].
  - apply (New_contract Tests.emptyHeader (Tests.config []) "header2post");
      discriminate.
Defined.

(** ** No marker, or an empty one *)

(** C3, as the specification states it, fails: a handler that sets the
    marker header to the empty string wrote that entry into the headers, and
    the client does not receive it. *)
Lemma unmarked_identical_refuted :
  ¬ unmarked_identical_as_stated
      (Tests.middleware Tests.emptyMarker []) Tests.mockAccepted ∅ Tests.req.
Proof.
  intros H. destruct (H eq_refl) as [Hd _].
  apply (f_equal (λ o, match o with
                       | Some (_, h, _) => h !! "X-Notify"
                       | None => None
                       end)) in Hd.
  vm_compute in Hd. discriminate Hd.
Qed.

(** C3, amended.  When the first value of the marker header is empty or
    the header is absent, nothing is logged, posted or read.  When moreover
    the handler neither flushes nor hijacks and the sink takes the response
    it asked for, the client receives the status code of its last
    [WriteHeader] call (200 without one), all the bytes it wrote, and the
    headers it left without the entry of the marker header; when the header
    is absent these are the headers it left, unchanged. *)
Theorem unmarked_response a E P h0 req :
  markerValue a (freshOf P h0) req = EmptyString →
  effects (ServeHTTP a E (freshOf P h0) req) = noEffects
  ∧ (quiet (next a) = true →
     takes P (lastCode (next a) StatusOK) →
     delivered (sink (ServeHTTP a E (freshOf P h0) req)) = Some (askedStripped a h0)
     ∧ (headersLeft (next a) h0
          !! textproto.CanonicalMIMEHeaderKey (notifyHeader a) = None →
        delivered (sink (ServeHTTP a E (freshOf P h0) req)) = Some (asked (next a) h0))).
Proof.
  intros Hv. split.
  - rewrite ServeHTTP_eq. cbn.
    destruct (handlerPanic a (freshOf P h0) req); [reflexivity|].
    by apply notification_empty.
  - intros Hq Ht. destruct (quiet_delivered a E P h0 req Hq Ht) as (Hd & _ & _).
    split; [exact Hd|].
    intros Habs. rewrite Hd. unfold askedStripped, asked, Header_Del.
    by rewrite delete_id.
Qed.

Lemma unmarked_response_witness :
  effects (ServeHTTP (Tests.middleware Streaming.quietUnmarked [])
             Tests.mockAccepted (freshOf server ∅) Tests.req) = noEffects
  ∧ delivered (sink (ServeHTTP (Tests.middleware Streaming.quietUnmarked [])
                       Tests.mockAccepted (freshOf server ∅) Tests.req))
    = Some (404, {[ "Content-Type" := ["text/plain"] ]}, "not found").
Proof.
  assert (Hv : markerValue (Tests.middleware Streaming.quietUnmarked [])
                 (freshOf server ∅) Tests.req = EmptyString)
    by (vm_compute; reflexivity).
  destruct (unmarked_response (Tests.middleware Streaming.quietUnmarked [])
              Tests.mockAccepted server ∅ Tests.req Hv) as (He & Hd).
  split; [exact He|].
  destruct Hd as [_ Hd]; [reflexivity|split; reflexivity|].
  rewrite Hd; vm_compute; reflexivity.
Defined.

(** ** A marker that is not base64 *)




(** ** A notification request that cannot be built *)




(** ** Forwarded request headers *)

Lemma Header_Get_requestValue req h :
  Header_Get (ReqHeader req) h = requestValue req (textproto.CanonicalMIMEHeaderKey h).
Proof. reflexivity. Qed.

Lemma forwardHeader_fields req myreq h :
  Method (forwardHeader req myreq h) = Method myreq
  ∧ URL (forwardHeader req myreq h) = URL myreq
  ∧ ReqBody (forwardHeader req myreq h) = ReqBody myreq.
Proof. unfold forwardHeader. destruct (String.eqb _ _); auto. Qed.

Lemma forward_fold_fields req fwd : ∀ myreq,
  Method (fold_left (forwardHeader req) fwd myreq) = Method myreq
  ∧ URL (fold_left (forwardHeader req) fwd myreq) = URL myreq
  ∧ ReqBody (fold_left (forwardHeader req) fwd myreq) = ReqBody myreq.
Proof.
  induction fwd as [|h fwd IH]; intros myreq; [auto|].
  cbn [fold_left]. destruct (IH (forwardHeader req myreq h)) as (-> & -> & ->).
  apply forwardHeader_fields.
Qed.

(** One step of the loop, seen from the name [k]. *)
Lemma forwardHeader_lookup req myreq h k :
  ReqHeader (forwardHeader req myreq h) !! k
  = if (String.eqb k (textproto.CanonicalMIMEHeaderKey h)
        && negb (String.eqb (strings.TrimSpace (requestValue req k)) EmptyString))%bool
    then Some [strings.TrimSpace (requestValue req k)]
    else ReqHeader myreq !! k.
Proof.
  unfold forwardHeader. rewrite Header_Get_requestValue.
  destruct (String.eqb_spec k (textproto.CanonicalMIMEHeaderKey h)) as [->|Hne]; cbn.
  - destruct (String.eqb _ EmptyString); cbn; [reflexivity|].
    unfold Header_Set. apply lookup_insert_eq.
  - destruct (String.eqb _ EmptyString); cbn; [reflexivity|].
    unfold Header_Set. by apply lookup_insert_ne.
Qed.

(** The whole loop: under the canonical form of a configured name whose
    trimmed request value is not empty stands that trimmed value, alone;
    every other name is as before the loop. *)
Lemma forward_fold_lookup req fwd k : ∀ myreq,
  ReqHeader (fold_left (forwardHeader req) fwd myreq) !! k
  = if (configured fwd k
        && negb (String.eqb (strings.TrimSpace (requestValue req k)) EmptyString))%bool
    then Some [strings.TrimSpace (requestValue req k)]
    else ReqHeader myreq !! k.
Proof.
  unfold configured.
  induction fwd as [|h fwd IH]; intros myreq; [reflexivity|].
  cbn [fold_left map existsb]. rewrite IH, forwardHeader_lookup.
  destruct (existsb _ _), (String.eqb k _), (negb _); reflexivity.
Qed.

Lemma configured_In fwd h :
  In h fwd → configured fwd (textproto.CanonicalMIMEHeaderKey h) = true.
Proof.
  intros Hin. unfold configured. apply existsb_exists.
  exists (textproto.CanonicalMIMEHeaderKey h). split.
  - by apply in_map.
  - apply String.eqb_refl.
Qed.

Lemma outgoing_lookup a req data k :
  ReqHeader (outgoing a req data) !! k
  = if (configured (forwardHeaders a) k
        && negb (String.eqb (strings.TrimSpace (requestValue req k)) EmptyString))%bool
    then Some [strings.TrimSpace (requestValue req k)]
    else if String.eqb k "Content-Type" then Some ["application/json"] else None.
Proof.
  unfold outgoing, prepare. rewrite forward_fold_lookup.
  destruct (_ && _)%bool; [reflexivity|]. cbn [ReqHeader withReqHeader].
  unfold Header_Set. change (textproto.CanonicalMIMEHeaderKey "Content-Type")
    with "Content-Type".
  destruct (String.eqb_spec k "Content-Type") as [->|Hne].
  - apply lookup_insert_eq.
  - rewrite lookup_insert_ne by congruence. apply lookup_empty.
Qed.

Lemma outgoing_fields a req data :
  Method (outgoing a req data) = "POST"
  ∧ URL (outgoing a req data) = notifyUrl a
  ∧ ReqBody (outgoing a req data) = data.
Proof.
  unfold outgoing, prepare.
  destruct (forward_fold_fields req (forwardHeaders a)
              (withReqHeader
                 {| Method := "POST"; URL := notifyUrl a; ReqHeader := ∅; ReqBody := data |}
                 (Header_Set ∅ "Content-Type" "application/json")))
    as (Hm & Hurl & Hb).
  cbn [ReqHeader] in Hm, Hurl, Hb |- *. rewrite Hm, Hurl, Hb. auto.
Qed.

(** ** A request that is posted *)

Section Posted.

(** One call of [ServeHTTP] in which the handler returns, the marker value
    decodes to [data] and the configured URL parses. *)
Variables (a : notify) (E : Env) (rw : ResponseWriter) (req : Request).
Variable data : string.
Hypothesis Hreturns : handlerPanic a rw req = None.
Hypothesis Hmarker : markerValue a rw req ≠ EmptyString.
Hypothesis Hdecoded : base64.DecodeString (markerValue a rw req) = inl data.
Hypothesis Hparsed : parseURL E (notifyUrl a) = None.

Let req' := handledRequest a rw req.
Let myreq := outgoing a req' data.

Lemma posted_effects :
  effects (ServeHTTP a E rw req) =
  match roundTrip E myreq with
  | inr err =>
      {| logged := ["post error: " +:+ err]; posted := [myreq]; bodiesRead := [] |}
  | inl resp =>
      if StatusCode resp =? StatusAccepted then
        {| logged := ["notify success"]; posted := [myreq]; bodiesRead := [] |}
      else
        match readAll E (Body resp) with
        | inr err =>
            {| logged := ["read resp body error: " +:+ err];
               posted := [myreq]; bodiesRead := [Body resp] |}
        | inl bodyBytes =>
            {| logged := ["notify failed:  " +:+ bodyBytes];
               posted := [myreq]; bodiesRead := [Body resp] |}
        end
  end.
Proof.
  rewrite ServeHTTP_effects by assumption.
  apply notification_posted; assumption.
Qed.

Lemma posted_once : posted (effects (ServeHTTP a E rw req)) = [myreq].
Proof.
  rewrite posted_effects.
  destruct (roundTrip E myreq) as [resp|err]; [|reflexivity].
  destruct (StatusCode resp =? StatusAccepted); [reflexivity|].
  destruct (readAll E (Body resp)); reflexivity.
Qed.

(** C7. Once [post] has returned a response: the success line is logged
    exactly when the status code is 202, and then nothing is read; for any
    other code the body is read, and the line logged is the failure line
    with the bytes read, or, when reading fails, the line of the read error
    and nothing more. *)
Theorem status_decides_log resp :
  post a E (outgoing a (handledRequest a rw req) data) = inl resp →
  (In "notify success" (logged (effects (ServeHTTP a E rw req)))
     ↔ StatusCode resp = StatusAccepted)
  ∧ (StatusCode resp = StatusAccepted →
       logged (effects (ServeHTTP a E rw req)) = ["notify success"]
       ∧ bodiesRead (effects (ServeHTTP a E rw req)) = [])
  ∧ (StatusCode resp ≠ StatusAccepted →
       bodiesRead (effects (ServeHTTP a E rw req)) = [Body resp]
       ∧ logged (effects (ServeHTTP a E rw req))
         = match readBody E (Body resp) with
           | inl bodyBytes => ["notify failed:  " +:+ bodyBytes]
           | inr err => ["read resp body error: " +:+ err]
           end).
Proof.
  intros Hr. unfold post in Hr. fold req' in Hr. fold myreq in Hr.
  rewrite posted_effects, Hr. unfold readBody.
  destruct (Z.eqb_spec (StatusCode resp) StatusAccepted) as [Heq|Hne].
  - cbn. repeat split; auto; intros; congruence.
  - split; [|split; [congruence|]].
    + split; [|congruence].
      destruct (readAll E (Body resp)); cbn; intros [Hx|[]]; discriminate Hx.
    + intros _. destruct (readAll E (Body resp)); cbn; auto.
Qed.

(** C5, amended.  When the handler returns, the marker value decodes and
    the URL parses, one request is posted: a POST to the configured URL with
    the decoded bytes as its body.  For every configured name, the value is
    the first one the request holds under that name when the handler has
    returned (the response headers play no part); when it is not empty once
    trimmed, the trimmed value is the only value of that header on the
    posted request; when it is empty or absent, the loop sets nothing under
    that name, which leaves no header, or the Content-Type that was set
    before the loop. *)
Theorem forwarded_headers_trimmed :
  ∃ r, posted (effects (ServeHTTP a E rw req)) = [r]
    ∧ Method r = "POST" ∧ URL r = notifyUrl a ∧ ReqBody r = data
    ∧ ∀ h, In h (forwardHeaders a) →
        (strings.TrimSpace (Header_Get (ReqHeader (handledRequest a rw req)) h)
           ≠ EmptyString →
         ReqHeader r !! textproto.CanonicalMIMEHeaderKey h
           = Some [strings.TrimSpace (Header_Get (ReqHeader (handledRequest a rw req)) h)]
         ∧ Header_Get (ReqHeader r) h
           = strings.TrimSpace (Header_Get (ReqHeader (handledRequest a rw req)) h))
        ∧ (strings.TrimSpace (Header_Get (ReqHeader (handledRequest a rw req)) h)
             = EmptyString →
           ReqHeader r !! textproto.CanonicalMIMEHeaderKey h
           = if String.eqb (textproto.CanonicalMIMEHeaderKey h) "Content-Type"
             then Some ["application/json"] else None).
Proof.
  exists myreq. split; [apply posted_once|]. subst myreq req'.
  destruct (outgoing_fields a (handledRequest a rw req) data) as (Hm & Hurl & Hb).
  repeat (split; [assumption|]).
  intros h Hin. split.
  - intros Hne.
    assert (Hl : ReqHeader (outgoing a (handledRequest a rw req) data)
                   !! textproto.CanonicalMIMEHeaderKey h
                 = Some [strings.TrimSpace
                           (Header_Get (ReqHeader (handledRequest a rw req)) h)]).
    { rewrite outgoing_lookup, (configured_In _ _ Hin).
      rewrite <- Header_Get_requestValue.
      apply String.eqb_neq in Hne. rewrite Hne. reflexivity. }
    split; [exact Hl|]. unfold Header_Get at 1. rewrite Hl. reflexivity.
  - intros Hempty. rewrite outgoing_lookup, (configured_In _ _ Hin).
    rewrite <- Header_Get_requestValue, Hempty. reflexivity.
Qed.

End Posted.

Lemma status_decides_log_witness :
  logged (effects (ServeHTTP (Tests.middleware Tests.validBadRequest [])
                     Tests.mockBadRequest (fresh ∅) Tests.req))
    = ["notify failed:  invalid notify url"]
  ∧ logged (effects (ServeHTTP (Tests.middleware Tests.validBadRequest [])
                       Tests.mockReadError (fresh ∅) Tests.req))
    = ["read resp body error: read body error"]
  ∧ logged (effects (ServeHTTP (Tests.middleware Tests.validBadRequest [])
                       Tests.mockAccepted (fresh ∅) Tests.req))
    = ["notify success"].
Proof.
  assert (Hp : handlerPanic (Tests.middleware Tests.validBadRequest []) (fresh ∅) Tests.req
               = None) by reflexivity.
  assert (Hv : markerValue (Tests.middleware Tests.validBadRequest []) (fresh ∅) Tests.req
               ≠ EmptyString) by (vm_compute; discriminate).
  assert (Hd : base64.DecodeString
                 (markerValue (Tests.middleware Tests.validBadRequest []) (fresh ∅) Tests.req)
               = inl "hello world") by (vm_compute; reflexivity).
  split; [|split].
  - apply (status_decides_log (Tests.middleware Tests.validBadRequest [])
             Tests.mockBadRequest (fresh ∅) Tests.req "hello world"
             Hp Hv Hd eq_refl
             {| StatusCode := 400; Body := "invalid notify url" |} eq_refl).
    discriminate.
  - apply (status_decides_log (Tests.middleware Tests.validBadRequest [])
             Tests.mockReadError (fresh ∅) Tests.req "hello world"
             Hp Hv Hd eq_refl
             {| StatusCode := 400; Body := "invalid notify url" |} eq_refl).
    discriminate.
  - apply (status_decides_log (Tests.middleware Tests.validBadRequest [])
             Tests.mockAccepted (fresh ∅) Tests.req "hello world"
             Hp Hv Hd eq_refl
             {| StatusCode := StatusAccepted; Body := EmptyString |} eq_refl).
    reflexivity.
Defined.

(** C5, as the specification states it, fails: a value with blanks around
    it is not set as it was read. *)
Lemma forwarded_verbatim_refuted :
  ¬ forwarded_verbatim_as_stated
      (Tests.middleware Tests.forwardingBlanks ["X-Test-Forward-A"])
      Tests.mockAccepted (fresh ∅) Tests.req.
Proof.
  intros H.
  destruct (H "X-Test-Forward-A"
              (outgoing (Tests.middleware Tests.forwardingBlanks ["X-Test-Forward-A"])
                 (handledRequest
                    (Tests.middleware Tests.forwardingBlanks ["X-Test-Forward-A"])
                    (fresh ∅) Tests.req)
                 "hello world")) as [Hset _].
  - left; reflexivity.
  - vm_compute. reflexivity.
  - assert (Hne : strings.TrimSpace
                    (Header_Get
                       (ReqHeader
                          (handledRequest
                             (Tests.middleware Tests.forwardingBlanks ["X-Test-Forward-A"])
                             (fresh ∅) Tests.req)) "X-Test-Forward-A") ≠ EmptyString)
      by (vm_compute; discriminate).
    specialize (Hset Hne). vm_compute in Hset. discriminate Hset.
Qed.

Lemma forwarded_headers_trimmed_witness :
  ∃ r, posted (effects (ServeHTTP (Tests.middleware Tests.forwarding Tests.forwardNames)
                          Tests.mockReadError (fresh ∅) Tests.req)) = [r]
    ∧ Header_Get (ReqHeader r) "X-Test-Forward-A" = "a"
    ∧ Header_Get (ReqHeader r) "X-Test-Forward-B" = "b"
    ∧ ReqHeader r !! "X-Test-Forward-C" = None.
Proof.
  assert (Hp : handlerPanic (Tests.middleware Tests.forwarding Tests.forwardNames)
                 (fresh ∅) Tests.req = None) by reflexivity.
  assert (Hv : markerValue (Tests.middleware Tests.forwarding Tests.forwardNames)
                 (fresh ∅) Tests.req ≠ EmptyString) by (vm_compute; discriminate).
  assert (Hd : base64.DecodeString
                 (markerValue (Tests.middleware Tests.forwarding Tests.forwardNames)
                    (fresh ∅) Tests.req)
               = inl "hello world") by (vm_compute; reflexivity).
  destruct (forwarded_headers_trimmed
              (Tests.middleware Tests.forwarding Tests.forwardNames)
              Tests.mockReadError (fresh ∅) Tests.req "hello world"
              Hp Hv Hd eq_refl) as (r & Hposted & _ & _ & _ & Hfwd).
  exists r. split; [exact Hposted|].
  destruct (Hfwd "X-Test-Forward-A") as [HA _]; [cbn; auto|].
  destruct (Hfwd "X-Test-Forward-B") as [HB _]; [cbn; auto|].
  destruct (Hfwd "X-Test-Forward-C") as [_ HC]; [cbn; auto|].
  destruct HA as [_ ->]; [vm_compute; discriminate|].
  destruct HB as [_ ->]; [vm_compute; discriminate|].
  split; [vm_compute; reflexivity|]. split; [vm_compute; reflexivity|].
  apply HC. vm_compute. reflexivity.
Defined.

(** ** The cases of the tests, run *)

Example test_post_error_keeps_headers :
  let out := ServeHTTP (Tests.middleware Tests.validWithHeaders [])
               Tests.mockPostError Tests.recorder Tests.req in
  delivered (sink out)
    = Some (200, {[ "Content-Type" := ["text/plain"]; "Test" := ["1"; "2"] ]},
            "hello world")
  ∧ logged (effects out) = ["post error: post error"].
Proof. split; vm_compute; reflexivity. Qed.

Example test_panic_still_flushes :
  let out := ServeHTTP (Tests.middleware Tests.panicking [])
               Tests.mockAccepted Tests.recorder Tests.req in
  delivered (sink out) = Some (500, ∅, "hello")
  ∧ calls (sink out) = [CallWriteHeader 500; CallWrite "hello"]
  ∧ effects out = noEffects
  ∧ panicked out = Some "boom".
Proof. repeat split; vm_compute; reflexivity. Qed.

Example test_blanks_are_trimmed :
  let out := ServeHTTP (Tests.middleware Tests.forwardingBlanks ["X-Test-Forward-A"])
               Tests.mockAccepted Tests.recorder Tests.req in
  Header_Get (ReqHeader (handledRequest
                           (Tests.middleware Tests.forwardingBlanks ["X-Test-Forward-A"])
                           Tests.recorder Tests.req)) "X-Test-Forward-A" = " a "
  ∧ map (λ r, Header_Get (ReqHeader r) "X-Test-Forward-A") (posted (effects out)) = ["a"].
Proof. split; vm_compute; reflexivity. Qed.

Example test_empty_marker_removed :
  let a := Tests.middleware Tests.emptyMarker [] in
  Header (handled a Tests.recorder Tests.req) !! "X-Notify" = Some [EmptyString]
  ∧ delivered (sink (ServeHTTP a Tests.mockAccepted Tests.recorder Tests.req))
    = Some (200, ∅, "hello world").
Proof. split; vm_compute; reflexivity. Qed.

(** A no-break space (U+00A0) in front of a value is surrounding white space
    as well. *)
Example trim_no_break_space :
  strings.TrimSpace (bytes [194; 160]%N +:+ "a" +:+ bytes [226; 128; 168]%N) = "a".
Proof. reflexivity. Qed.

(** * Further properties of the package *)

(** ** The buffer: bytes, status code, headers *)

Lemma lastCode_app pre rest : ∀ c0,
  existsb isPanic pre = false →
  lastCode (pre ++ rest)%list c0 = lastCode rest (lastCode pre c0).
Proof.
  induction pre as [|c pre IH]; intros c0 Hp; [reflexivity|].
  cbn in Hp. apply orb_false_elim in Hp as [Hc Hp].
  destruct c; cbn in Hc; try discriminate; cbn [app lastCode]; by apply IH.
Qed.

Lemma lastCode_kept h : ∀ c0, existsb setsStatus h = false → lastCode h c0 = c0.
Proof.
  induction h as [|c h IH]; intros c0 Hs; [reflexivity|].
  cbn in Hs. apply orb_false_elim in Hs as [Hc Hs].
  destruct c; cbn in Hc; try discriminate; cbn [lastCode]; auto.
Qed.

(** X1. While a handler that neither flushes nor hijacks runs, nothing
    reaches the real sink: its status line, its body, the calls it received,
    the informational responses it sent and its connection are those of
    before the request. *)
Theorem handler_output_is_held_back a rw req :
  quiet (next a) = true →
  wrote (w (handled a rw req)) = wrote rw
  ∧ written (w (handled a rw req)) = written rw
  ∧ calls (w (handled a rw req)) = calls rw
  ∧ interim (w (handled a rw req)) = interim rw
  ∧ hijacked (w (handled a rw req)) = hijacked rw.
Proof. intros Hq. rewrite (quiet_sink a rw req Hq). by repeat split. Qed.

Lemma handler_output_is_held_back_witness :
  buf (handled (Tests.middleware Streaming.quietValid []) (fresh ∅) Tests.req)
    = "hello world"
  ∧ calls (w (handled (Tests.middleware Streaming.quietValid []) (fresh ∅) Tests.req))
    = [].
Proof.
  split; [vm_compute; reflexivity|].
  destruct (handler_output_is_held_back (Tests.middleware Streaming.quietValid [])
              (fresh ∅) Tests.req eq_refl) as (_ & _ & Hc & _).
  exact Hc.
Defined.

(** A handler that flushes the buffer itself does reach the sink while it
    runs. *)
Example flushing_handler_reaches_sink :
  calls (w (handled (Tests.middleware Streaming.flushesMarker []) (fresh ∅) Tests.req))
    = [CallWriteHeader 400; CallWrite "hello"]
  ∧ calls (sink (ServeHTTP (Tests.middleware Streaming.flushesMarker [])
                   Tests.mockAccepted (fresh ∅) Tests.req))
    = [CallWriteHeader 400; CallWrite "hello"; CallWriteHeader 400; CallWrite " world"].
Proof. split; vm_compute; reflexivity. Qed.

(** X2. For a handler that neither flushes nor hijacks, on a sink that takes
    the response it asked for, the body the client receives is the bytes of
    all its [Write] calls, in order, up to its return or its panic. *)
Theorem body_is_all_writes a E P h0 req :
  quiet (next a) = true →
  takes P (lastCode (next a) StatusOK) →
  ∃ c h, delivered (sink (ServeHTTP a E (freshOf P h0) req))
         = Some (c, h, chunks (next a)).
Proof.
  intros Hq Ht. destruct (quiet_delivered a E P h0 req Hq Ht) as (Hd & _).
  eexists _, _. exact Hd.
Qed.

Lemma body_is_all_writes_witness :
  ∃ c h, delivered (sink (ServeHTTP (Tests.middleware Streaming.quietPanic [])
                            Tests.mockAccepted (freshOf server ∅) Tests.req))
         = Some (c, h, "hello").
Proof.
  apply (body_is_all_writes (Tests.middleware Streaming.quietPanic [])
           Tests.mockAccepted server ∅ Tests.req); [reflexivity|split; reflexivity].
Defined.

(** X3. For a handler that neither flushes nor hijacks, the status code the
    client receives is the one of the last [WriteHeader] call the handler
    made, not of the first, when the sink takes a response of that status. *)
Theorem last_status_wins a E P h0 req pre c post :
  next a = (pre ++ DoWriteHeader c :: post)%list →
  existsb isPanic pre = false →
  existsb setsStatus post = false →
  quiet (next a) = true →
  takes P c →
  ∃ h b, delivered (sink (ServeHTTP a E (freshOf P h0) req)) = Some (c, h, b).
Proof.
  intros Hn Hpre Hpost Hq Ht.
  assert (Hc : lastCode (next a) StatusOK = c).
  { rewrite Hn, lastCode_app by assumption. cbn [lastCode].
    by apply lastCode_kept. }
  rewrite <- Hc in Ht. destruct (quiet_delivered a E P h0 req Hq Ht) as (Hd & _).
  eexists _, _. rewrite Hd. unfold askedStripped. by rewrite Hc.
Qed.

Lemma last_status_wins_witness :
  ∃ h b, delivered (sink (ServeHTTP (Tests.middleware Cases.twoStatuses [])
                            Tests.mockAccepted (fresh ∅) Tests.req))
         = Some (500, h, b).
Proof.
  apply (last_status_wins (Tests.middleware Cases.twoStatuses [])
           Tests.mockAccepted recorder ∅ Tests.req
           [DoWriteHeader 404; DoWrite "not "] 500 [DoWrite "found"]);
    try reflexivity.
  split; reflexivity.
Defined.

(** X4. For a handler that neither flushes nor hijacks, on a sink that takes
    the response it asked for, the client receives on every path (return or
    panic, notification or none) the status code the handler set last, the
    bytes it wrote, and every header it left, set before or after its
    writes, but the marker header. *)
Theorem client_receives_buffer a E P h0 req :
  quiet (next a) = true →
  takes P (lastCode (next a) StatusOK) →
  ∃ h, delivered (sink (ServeHTTP a E (freshOf P h0) req))
       = Some (lastCode (next a) StatusOK, h, chunks (next a))
     ∧ ∀ k, h !! k = if decide (k = textproto.CanonicalMIMEHeaderKey (notifyHeader a))
                     then None else headersLeft (next a) h0 !! k.
Proof.
  intros Hq Ht. destruct (quiet_delivered a E P h0 req Hq Ht) as (Hd & _).
  eexists. split; [exact Hd|].
  intros k. unfold Header_Del. rewrite lookup_delete.
  destruct (decide (k = _)), (decide (_ = k)); congruence.
Qed.

Lemma client_receives_buffer_witness :
  ∃ h, delivered (sink (ServeHTTP (Tests.middleware Cases.lateHeader [])
                          Tests.mockAccepted (fresh ∅) Tests.req))
       = Some (201, h, "made")
     ∧ h !! "Location" = Some ["/things/1"].
Proof.
  destruct (client_receives_buffer (Tests.middleware Cases.lateHeader [])
              Tests.mockAccepted recorder ∅ Tests.req eq_refl) as (h & Hd & Hh);
    [split; reflexivity|].
  exists h. split; [exact Hd|]. rewrite Hh. vm_compute. reflexivity.
Defined.


(** On the recorder of the tests, which takes the bytes, the second [Flush]
    is one [WriteHeader] and nothing else; on the server, at a status that
    allows no body, it is a [Write] as well. *)
Example second_flush_cases :
  calls (w (Flush (Flush {| w := fresh ∅; buf := "hello"; code := 201 |}).1).1)
    = [CallWriteHeader 201; CallWrite "hello"; CallWriteHeader 201]
  ∧ calls (w (Flush (Flush {| w := freshOf server ∅; buf := "hello"; code := 204 |}).1).1)
    = [CallWriteHeader 204; CallWrite "hello"; CallWriteHeader 204; CallWrite "hello"]
  ∧ delivered (w (Flush (Flush {| w := freshOf server ∅; buf := "hello";
                                  code := 204 |}).1).1)
    = Some (204, ∅, EmptyString).
Proof. repeat split; vm_compute; reflexivity. Qed.

(** ** The notification path as a whole *)

Lemma notification_cases a E wr req :
  let value := Header_Get (Header wr) (notifyHeader a) in
  (notification a E wr req = noEffects ∧ value = EmptyString)
  ∨ (∃ err, base64.DecodeString value = inr err
       ∧ notification a E wr req = logOnly ("base64 decode error: " +:+ base64.Error err))
  ∨ (∃ data err, value ≠ EmptyString ∧ base64.DecodeString value = inl data
       ∧ parseURL E (notifyUrl a) = Some err
       ∧ notification a E wr req = logOnly ("create http request error: " +:+ err))
  ∨ (∃ data line reads, value ≠ EmptyString ∧ base64.DecodeString value = inl data
       ∧ parseURL E (notifyUrl a) = None
       ∧ (length reads ≤ 1)%nat
       ∧ notification a E wr req
         = {| logged := [line]; posted := [outgoing a req data]; bodiesRead := reads |}).
Proof.
  intros value.
  destruct (String.eqb_spec value EmptyString) as [Hv|Hv].
  { left. split; [by apply notification_empty | exact Hv]. }
  destruct (base64.DecodeString value) as [data|err] eqn:Hd.
  2:{ right; left. exists err. split; [reflexivity|].
      by apply notification_decode_error. }
  destruct (parseURL E (notifyUrl a)) as [err|] eqn:Hu.
  { right; right; left. exists data, err. repeat split; try assumption.
    by apply (notification_request_error a E wr req data). }
  right; right; right. exists data.
  rewrite (notification_posted a E wr req data Hv Hd Hu).
  destruct (roundTrip E _) as [resp|err].
  - destruct (StatusCode resp =? StatusAccepted).
    + eexists _, []. repeat split; try assumption. cbn; lia.
    + destruct (readAll E (Body resp)); eexists _, [_];
        repeat split; try assumption; cbn; lia.
  - eexists _, []. repeat split; try assumption. cbn; lia.
Qed.

(** X6. A request is posted exactly when the handler returns, the marker
    value is not empty, it decodes and the configured URL parses; and one
    call of [ServeHTTP] posts at most one request, logs at most one line and
    reads at most one body: nothing is tried twice. *)
Theorem posted_exactly_when a E rw req :
  (posted (effects (ServeHTTP a E rw req)) ≠ []
     ↔ handlerPanic a rw req = None
       ∧ markerValue a rw req ≠ EmptyString
       ∧ (∃ data, base64.DecodeString (markerValue a rw req) = inl data)
       ∧ parseURL E (notifyUrl a) = None)
  ∧ (length (posted (effects (ServeHTTP a E rw req))) ≤ 1)%nat
  ∧ (length (logged (effects (ServeHTTP a E rw req))) ≤ 1)%nat
  ∧ (length (bodiesRead (effects (ServeHTTP a E rw req))) ≤ 1)%nat.
Proof.
  rewrite ServeHTTP_eq. cbn [effects]. unfold markerValue.
  destruct (handlerPanic a rw req) as [v|] eqn:Hp.
  { cbn. split; [|lia]. split; [congruence|]. intros [? _]; discriminate. }
  destruct (notification_cases a E (handled a rw req) (handledRequest a rw req))
    as [[-> Hv] | [(err & Hd & ->) | [(data & err & Hv & Hd & Hu & ->)
       | (data & line & reads & Hv & Hd & Hu & Hr & ->)]]]; cbn.
  - split; [|lia]. split; [congruence|]. intros (_ & Hne & _). by destruct Hne.
  - split; [|lia]. split; [congruence|]. intros (_ & _ & [data Hd'] & _). congruence.
  - split; [|lia]. split; [congruence|]. intros (_ & _ & _ & Hu'). congruence.
  - split; [|lia]. split; [|congruence]. intros _. eauto.
Qed.

(** X7. A handler that panics never causes a notification, whatever it put
    in the marker header: nothing is posted, logged or read, and a panic
    goes on to the caller.  When the handler neither flushed nor hijacked
    and the sink takes the response it asked for, that panic is the
    handler's own and the client still receives what the handler wrote
    before it, without the marker header. *)
Theorem panic_skips_notification a E P h0 req v :
  handlerPanic a (freshOf P h0) req = Some v →
  effects (ServeHTTP a E (freshOf P h0) req) = noEffects
  ∧ panicked (ServeHTTP a E (freshOf P h0) req) ≠ None
  ∧ (quiet (next a) = true →
     takes P (lastCode (next a) StatusOK) →
     panicked (ServeHTTP a E (freshOf P h0) req) = Some v
     ∧ delivered (sink (ServeHTTP a E (freshOf P h0) req)) = Some (askedStripped a h0)).
Proof.
  intros Hp. split; [|split].
  - rewrite ServeHTTP_eq. cbn. by rewrite Hp.
  - rewrite ServeHTTP_eq. cbn [panicked]. rewrite Hp. unfold leaving.
    by destruct (deferred a (handled a (freshOf P h0) req)).2.
  - intros Hq Ht. destruct (quiet_delivered a E P h0 req Hq Ht) as (Hd & Hpan & _).
    split; [|exact Hd].
    rewrite Hpan. destruct (quiet_handled a P h0 req Hq) as [_ <-]. exact Hp.
Qed.

Lemma panic_skips_notification_witness :
  markerValue (Tests.middleware Streaming.quietPanic []) (fresh ∅) Tests.req
    = Tests.helloWorld64
  ∧ effects (ServeHTTP (Tests.middleware Streaming.quietPanic [])
               Tests.mockAccepted (fresh ∅) Tests.req) = noEffects
  ∧ delivered (sink (ServeHTTP (Tests.middleware Streaming.quietPanic [])
                       Tests.mockAccepted (fresh ∅) Tests.req))
    = Some (500, {[ "Content-Type" := ["text/plain"] ]}, "hello").
Proof.
  split; [vm_compute; reflexivity|]. unfold fresh.
  destruct (panic_skips_notification (Tests.middleware Streaming.quietPanic [])
              Tests.mockAccepted recorder ∅ Tests.req "boom" eq_refl)
    as (He & _ & Hd).
  split; [exact He|].
  destruct Hd as [_ Hd]; [reflexivity|split; reflexivity|].
  rewrite Hd. vm_compute. reflexivity.
Defined.

(** X8. When the request is posted and the transport fails, the line of
    the post error is logged, no body is read, and that is all. *)
Theorem transport_error_logged a E rw req data err :
  handlerPanic a rw req = None →
  markerValue a rw req ≠ EmptyString →
  base64.DecodeString (markerValue a rw req) = inl data →
  parseURL E (notifyUrl a) = None →
  post a E (outgoing a (handledRequest a rw req) data) = inr err →
  effects (ServeHTTP a E rw req)
  = {| logged := ["post error: " +:+ err];
       posted := [outgoing a (handledRequest a rw req) data];
       bodiesRead := [] |}.
Proof.
  intros Hp Hv Hd Hu Hr. unfold post in Hr.
  rewrite (posted_effects a E rw req data Hp Hv Hd Hu).
  cbv zeta. rewrite Hr. reflexivity.
Qed.

Lemma transport_error_logged_witness :
  logged (effects (ServeHTTP (Tests.middleware Tests.validWithHeaders [])
                     Tests.mockPostError (fresh ∅) Tests.req))
  = ["post error: post error"].
Proof.
  assert (Hv : markerValue (Tests.middleware Tests.validWithHeaders []) (fresh ∅) Tests.req
               ≠ EmptyString) by (vm_compute; discriminate).
  assert (Hd : base64.DecodeString
                 (markerValue (Tests.middleware Tests.validWithHeaders []) (fresh ∅)
                    Tests.req)
               = inl "hello world") by (vm_compute; reflexivity).
  rewrite (transport_error_logged (Tests.middleware Tests.validWithHeaders [])
             Tests.mockPostError (fresh ∅) Tests.req "hello world" "post error"
             eq_refl Hv Hd eq_refl eq_refl).
  reflexivity.
Defined.

(** ** What is forwarded, and under which names *)

Lemma posted_is_outgoing a E rw req r :
  In r (posted (effects (ServeHTTP a E rw req))) →
  ∃ data, base64.DecodeString (markerValue a rw req) = inl data
          ∧ r = outgoing a (handledRequest a rw req) data.
Proof.
  rewrite ServeHTTP_eq. cbn [effects]. unfold markerValue.
  destruct (handlerPanic a rw req); [intros []|].
  destruct (notification_cases a E (handled a rw req) (handledRequest a rw req))
    as [[-> Hv] | [(err & Hd & ->) | [(data & err & Hv & Hd & Hu & ->)
       | (data & line & reads & Hv & Hd & Hu & Hr & ->)]]]; cbn;
    try (intros []; fail).
  intros [<-|[]]. eauto.
Qed.

(** X9. A request header is never forwarded unless its name is configured:
    on a posted request, a name that is not the canonical form of a
    configured name and is not Content-Type has no value, whatever the
    incoming request carried under it. *)
Theorem unconfigured_never_forwarded a E rw req r k :
  In r (posted (effects (ServeHTTP a E rw req))) →
  configured (forwardHeaders a) k = false →
  k ≠ "Content-Type" →
  ReqHeader r !! k = None.
Proof.
  intros Hin Hk Hct. destruct (posted_is_outgoing a E rw req r Hin) as (data & _ & ->).
  rewrite outgoing_lookup, Hk. cbn.
  apply String.eqb_neq in Hct. by rewrite Hct.
Qed.

Lemma unconfigured_never_forwarded_witness :
  Header_Get (ReqHeader (handledRequest
                           (Tests.middleware Cases.withCookie ["X-Test-Forward-A"])
                           (fresh ∅) Tests.req)) "Cookie" = "session=1"
  ∧ ∀ r, In r (posted (effects (ServeHTTP
                                  (Tests.middleware Cases.withCookie ["X-Test-Forward-A"])
                                  Tests.mockAccepted (fresh ∅) Tests.req))) →
         ReqHeader r !! "Cookie" = None.
Proof.
  split; [vm_compute; reflexivity|].
  intros r Hin.
  apply (unconfigured_never_forwarded
           (Tests.middleware Cases.withCookie ["X-Test-Forward-A"])
           Tests.mockAccepted (fresh ∅) Tests.req r "Cookie" Hin);
    [reflexivity | discriminate].
Defined.

Lemma Request_eq (r r' : Request) :
  Method r = Method r' → URL r = URL r' → ReqHeader r = ReqHeader r' →
  ReqBody r = ReqBody r' → r = r'.
Proof. destruct r, r'; cbn; intros; subst; reflexivity. Qed.



(** X11. The marker-header name counts by its canonical form: two
    middlewares that differ in the spelling of that name only (and in their
    own name) treat every request alike. *)
Theorem marker_name_by_canonical_form a a' E rw req :
  next a = next a' →
  forwardHeaders a = forwardHeaders a' →
  notifyUrl a = notifyUrl a' →
  textproto.CanonicalMIMEHeaderKey (notifyHeader a)
    = textproto.CanonicalMIMEHeaderKey (notifyHeader a') →
  ServeHTTP a E rw req = ServeHTTP a' E rw req.
Proof.
  destruct a as [n f h u nm], a' as [n' f' h' u' nm']. cbn.
  intros -> -> -> Hc.
  unfold ServeHTTP, deferred, notification, prepare, post, Header_Get, Header_Del.
  cbn [next forwardHeaders notifyHeader notifyUrl]. rewrite Hc. reflexivity.
Qed.

Lemma marker_name_by_canonical_form_witness :
  ServeHTTP (Cases.lowerMarker Tests.validBadRequest) Tests.mockBadRequest
    (fresh ∅) Tests.req
  = ServeHTTP (Tests.middleware Tests.validBadRequest []) Tests.mockBadRequest
      (fresh ∅) Tests.req.
Proof.
  apply (marker_name_by_canonical_form
           (Cases.lowerMarker Tests.validBadRequest)
           (Tests.middleware Tests.validBadRequest [])
           Tests.mockBadRequest (fresh ∅) Tests.req); reflexivity.
Defined.

(** ** header2post.go: the buffer without forwarded headers *)

Lemma serveOn_wrapped h : ∀ wr req,
  serveOn h wr req = Handler_ServeHTTP h wr req.
Proof.
  induction h as [|c h IH]; intros wr req; [reflexivity|].
  cbn [serveOn Handler_ServeHTTP].
  assert (Hc : callOn c wr req = handlerCall c wr req) by (by destruct c).
  rewrite Hc. destruct (handlerCall c wr req) as [[wr' req'] [v|]]; [reflexivity|].
  apply IH.
Qed.

Lemma Earlier_ServeHTTP_eq a E rw req :
  Earlier.ServeHTTP a E rw req =
  let wr := (Handler_ServeHTTP (Earlier.next a) (newResponseWriter rw) req).1.1 in
  let pan := (Handler_ServeHTTP (Earlier.next a) (newResponseWriter rw) req).2 in
  {| Earlier.sink := w (Earlier.deferred a wr).1;
     Earlier.effects :=
       match pan with
       | Some _ => Earlier.noEffects
       | None =>
           if String.eqb (Header_Get (Header wr) (Earlier.notifyHeader a)) EmptyString
           then Earlier.noEffects
           else Earlier.relay a E (Header_Get (Header wr) (Earlier.notifyHeader a))
       end;
     Earlier.panicked := leaving pan (Earlier.deferred a wr).2 |}.
Proof.
  unfold Earlier.ServeHTTP. rewrite serveOn_wrapped.
  destruct (Handler_ServeHTTP _ _ _) as [[wr req'] pan]. cbn [fst snd].
  destruct (Earlier.deferred a wr). reflexivity.
Qed.

(** X12. The variant of header2post.go and the variant with forwarded
    headers leave the same sink, and so give the client the same response,
    for the same handler and marker-header name, whatever their
    environments, URLs and forwarded names; and they pass on the same
    panic. *)
Theorem forwarding_changes_no_response a1 a E1 E rw req :
  Earlier.next a1 = next a →
  Earlier.notifyHeader a1 = notifyHeader a →
  Earlier.sink (Earlier.ServeHTTP a1 E1 rw req) = sink (ServeHTTP a E rw req)
  ∧ Earlier.panicked (Earlier.ServeHTTP a1 E1 rw req) = panicked (ServeHTTP a E rw req).
Proof.
  intros Hn Hh. rewrite Earlier_ServeHTTP_eq, ServeHTTP_eq. cbn.
  unfold handled, handlerPanic, Earlier.deferred, deferred. rewrite Hn, Hh.
  split; reflexivity.
Qed.

Lemma forwarding_changes_no_response_witness :
  delivered (Earlier.sink (Earlier.ServeHTTP (EarlierCases.middleware Tests.validWithHeaders)
                             EarlierCases.mockPostError (fresh ∅) Tests.req))
  = delivered (sink (ServeHTTP (Tests.middleware Tests.validWithHeaders Tests.forwardNames)
                       Tests.mockAccepted (fresh ∅) Tests.req)).
Proof.
  destruct (forwarding_changes_no_response
              (EarlierCases.middleware Tests.validWithHeaders)
              (Tests.middleware Tests.validWithHeaders Tests.forwardNames)
              EarlierCases.mockPostError Tests.mockAccepted (fresh ∅) Tests.req
              eq_refl eq_refl) as [Hs _].
  rewrite Hs. reflexivity.
Defined.

Lemma relay_cases a E value :
  (∃ err, base64.DecodeString value = inr err
     ∧ Earlier.relay a E value
       = {| Earlier.logged := ["base64 decode error: " +:+ base64.Error err];
            Earlier.posted := []; Earlier.bodiesRead := [] |})
  ∨ (∃ data line reads, base64.DecodeString value = inl data
       ∧ (length reads ≤ 1)%nat
       ∧ Earlier.relay a E value
         = {| Earlier.logged := [line];
              Earlier.posted := [(Earlier.notifyUrl a, "application/json", data)];
              Earlier.bodiesRead := reads |}).
Proof.
  unfold Earlier.relay.
  destruct (base64.DecodeString value) as [data|err]; [right|left; eauto].
  exists data. destruct (Earlier.post a E data) as [resp|err].
  - destruct (StatusCode resp =? StatusAccepted).
    + eexists _, []. repeat split. cbn; lia.
    + destruct (Earlier.readBody E (Body resp)); eexists _, [_]; repeat split; cbn; lia.
  - eexists _, []. repeat split. cbn; lia.
Qed.

(** X13. In header2post.go, whatever is posted goes to the configured URL
    with the content type application/json and, as its body, the bytes the
    marker value decodes to; it is the only request posted, and the handler
    returned. *)
Theorem earlier_post_is_the_payload a E rw req p :
  In p (Earlier.posted (Earlier.effects (Earlier.ServeHTTP a E rw req))) →
  ∃ data,
    base64.DecodeString
      (Header_Get (Header (Handler_ServeHTTP (Earlier.next a) (newResponseWriter rw) req).1.1)
         (Earlier.notifyHeader a)) = inl data
    ∧ (Handler_ServeHTTP (Earlier.next a) (newResponseWriter rw) req).2 = None
    ∧ p = (Earlier.notifyUrl a, "application/json", data)
    ∧ Earlier.posted (Earlier.effects (Earlier.ServeHTTP a E rw req)) = [p].
Proof.
  rewrite Earlier_ServeHTTP_eq. cbv zeta. cbn [Earlier.effects].
  destruct (Handler_ServeHTTP _ _ _).2 as [v|]; [intros []|].
  destruct (String.eqb _ EmptyString); [intros []|].
  destruct (relay_cases a E
              (Header_Get (Header (Handler_ServeHTTP (Earlier.next a)
                                     (newResponseWriter rw) req).1.1)
                 (Earlier.notifyHeader a)))
    as [(err & Hd & ->) | (data & line & reads & Hd & _ & ->)]; cbn.
  - intros [].
  - intros [<-|[]]. exists data. repeat split. exact Hd.
Qed.

Lemma earlier_post_is_the_payload_witness :
  Earlier.posted (Earlier.effects
                    (Earlier.ServeHTTP (EarlierCases.middleware Tests.validBadRequest)
                       EarlierCases.mockAccepted (fresh ∅) Tests.req))
  = [("https://example.com/notification", "application/json", "hello world")].
Proof.
  destruct (earlier_post_is_the_payload
              (EarlierCases.middleware Tests.validBadRequest)
              EarlierCases.mockAccepted (fresh ∅) Tests.req
              ("https://example.com/notification", "application/json", "hello world"))
    as (data & _ & _ & _ & Hp).
  - vm_compute. left. reflexivity.
  - exact Hp.
Defined.

Lemma Header_Get_Set (h : http.Header) k v : Header_Get (Header_Set h k v) k = v.
Proof. unfold Header_Get, Header_Set. by rewrite lookup_insert_eq. Qed.

(** X14. With no forwarded header configured and a URL that parses, the
    variant with forwarded headers does what header2post.go does: when
    [http.Post] is the request that [http.NewRequest] builds, given the
    content type and sent, and the bodies read alike, the two log the same
    line, read the same body and post the same URL, content type and
    bytes. *)
Theorem no_forwarding_is_the_earlier_variant a1 a E1 E rw req :
  Earlier.next a1 = next a →
  Earlier.notifyHeader a1 = notifyHeader a →
  Earlier.notifyUrl a1 = notifyUrl a →
  forwardHeaders a = [] →
  parseURL E (notifyUrl a) = None →
  (∀ body, Earlier.httpPost E1 (notifyUrl a) "application/json" body
           = roundTrip E {| Method := "POST"; URL := notifyUrl a;
                            ReqHeader := Header_Set ∅ "Content-Type" "application/json";
                            ReqBody := body |}) →
  (∀ r, Earlier.readAll E1 r = readAll E r) →
  Earlier.logged (Earlier.effects (Earlier.ServeHTTP a1 E1 rw req))
    = logged (effects (ServeHTTP a E rw req))
  ∧ Earlier.bodiesRead (Earlier.effects (Earlier.ServeHTTP a1 E1 rw req))
    = bodiesRead (effects (ServeHTTP a E rw req))
  ∧ Earlier.posted (Earlier.effects (Earlier.ServeHTTP a1 E1 rw req))
    = map (λ r, (URL r, Header_Get (ReqHeader r) "Content-Type", ReqBody r))
        (posted (effects (ServeHTTP a E rw req))).
Proof.
  intros Hn Hh Hurl Hf Hu Hpost Hread.
  rewrite Earlier_ServeHTTP_eq, ServeHTTP_eq. cbv zeta. cbn [Earlier.effects effects].
  unfold handlerPanic, handled, handledRequest. rewrite Hn, Hh.
  destruct (Handler_ServeHTTP (next a) (newResponseWriter rw) req) as [[wr req'] pan].
  cbn [fst snd]. destruct pan; [repeat split|].
  unfold notification, Earlier.relay, NewRequest, prepare, post, Earlier.post,
    readBody, Earlier.readBody.
  destruct (String.eqb _ EmptyString); [repeat split|].
  destruct (base64.DecodeString _) as [data|err]; [|repeat split].
  rewrite Hu, Hf, Hurl, Hpost. cbn [fold_left withReqHeader Method URL ReqHeader ReqBody].
  destruct (roundTrip E _) as [resp|err];
    [|cbn; rewrite Header_Get_Set; repeat split].
  destruct (StatusCode resp =? StatusAccepted);
    [cbn; rewrite Header_Get_Set; repeat split|].
  rewrite Hread. destruct (readAll E (Body resp));
    cbn; rewrite Header_Get_Set; repeat split.
Qed.

Lemma no_forwarding_is_the_earlier_variant_witness :
  Earlier.logged (Earlier.effects
                    (Earlier.ServeHTTP (EarlierCases.middleware Tests.validBadRequest)
                       EarlierCases.mockAccepted (fresh ∅) Tests.req))
  = logged (effects (ServeHTTP (Tests.middleware Tests.validBadRequest [])
                       Tests.mockAccepted (fresh ∅) Tests.req)).
Proof.
  apply (no_forwarding_is_the_earlier_variant
           (EarlierCases.middleware Tests.validBadRequest)
           (Tests.middleware Tests.validBadRequest [])
           EarlierCases.mockAccepted Tests.mockAccepted (fresh ∅) Tests.req);
    reflexivity.
Defined.

(** ** The variant that hands the real writer to the handler *)

(** X15. That variant never takes the marker header away: whenever it
    posts a request, the marker value it decoded is still the first value of
    the marker header in the header map of the real writer. *)
Theorem direct_variant_keeps_marker a E rw req p :
  In p (Earlier.posted (Earlier.effects (Earlier.ServeHTTP_direct a E rw req))) →
  ∃ data,
    base64.DecodeString
      (Header_Get (header (Earlier.sink (Earlier.ServeHTTP_direct a E rw req)))
         (Earlier.notifyHeader a)) = inl data
    ∧ Header_Get (header (Earlier.sink (Earlier.ServeHTTP_direct a E rw req)))
        (Earlier.notifyHeader a) ≠ EmptyString
    ∧ p = (Earlier.notifyUrl a, "application/json", data).
Proof.
  unfold Earlier.ServeHTTP_direct.
  destruct (serveOn (Earlier.next a) rw req) as [[wr req'] pan].
  cbn [Earlier.effects Earlier.sink].
  destruct pan; [intros []|].
  destruct (String.eqb_spec (Header_Get (header wr) (Earlier.notifyHeader a)) EmptyString)
    as [Hv|Hv]; [intros []|].
  destruct (relay_cases a E (Header_Get (header wr) (Earlier.notifyHeader a)))
    as [(err & Hd & ->) | (data & line & reads & Hd & _ & ->)]; cbn.
  - intros [].
  - intros [<-|[]]. exists data. repeat split; assumption.
Qed.

Lemma direct_variant_keeps_marker_witness :
  Header_Get (header (Earlier.sink
                        (Earlier.ServeHTTP_direct (EarlierCases.middleware Tests.validBadRequest)
                           EarlierCases.mockAccepted (fresh ∅) Tests.req))) "X-Notify"
  ≠ EmptyString.
Proof.
  destruct (direct_variant_keeps_marker
              (EarlierCases.middleware Tests.validBadRequest)
              EarlierCases.mockAccepted (fresh ∅) Tests.req
              ("https://example.com/notification", "application/json", "hello world"))
    as (data & _ & Hne & _).
  - vm_compute. left. reflexivity.
  - exact Hne.
Defined.

(** ** header2notify.go: the writer that is copied afterwards *)

(** The writer of header2notify.go never panics: a handler on it ends by
    its own panic only, and leaves the header map, the status code and the
    panic that are read off its calls. *)
Lemma inject_handler h : ∀ (i : Earlier.injectResponseWriter) req,
  Earlier.injHeader (serveOn h i req).1.1 = headersLeft h (Earlier.injHeader i)
  ∧ Earlier.injCode (serveOn h i req).1.1 = lastCode h (Earlier.injCode i)
  ∧ (serveOn h i req).2 = ownPanic h.
Proof.
  induction h as [|c h IH]; intros i req; [auto|].
  destruct c; cbn [serveOn callOn headersLeft lastCode ownPanic];
    cbn [doWrite doWriteHeader doFlush doHijack doOverwrite putHeader getHeader
         Earlier.inject_ops];
    try (match goal with
         | |- context [serveOn h ?x req] => destruct (IH x req) as (-> & -> & ->)
         end);
    cbn; auto.
Qed.

Lemma inject_serveOn_app pre rest : ∀ (i : Earlier.injectResponseWriter) req,
  existsb isPanic pre = false →
  serveOn (pre ++ rest)%list i req
  = serveOn rest (serveOn pre i req).1.1 (serveOn pre i req).1.2.
Proof.
  induction pre as [|c pre IH]; intros i req Hp; [reflexivity|].
  cbn in Hp. apply orb_false_elim in Hp as [Hc Hp].
  destruct c; cbn in Hc; try discriminate; cbn [app serveOn callOn];
    cbn [doWrite doWriteHeader doFlush doHijack doOverwrite putHeader getHeader
         Earlier.inject_ops];
    by rewrite IH.
Qed.

Lemma ownPanic_none h : existsb isPanic h = false → ownPanic h = None.
Proof.
  induction h as [|c h IH]; intros Hp; [reflexivity|].
  cbn in Hp. apply orb_false_elim in Hp as [Hc Hp].
  destruct c; cbn in Hc; try discriminate; cbn; auto.
Qed.

Lemma inject_data_kept h : ∀ (i : Earlier.injectResponseWriter) req,
  existsb isWrite h = false →
  existsb isOverwrite h = false →
  Earlier.injData (serveOn h i req).1.1 = Earlier.injData i.
Proof.
  induction h as [|c h IH]; intros i req Hw Ho; [reflexivity|].
  cbn in Hw, Ho. apply orb_false_elim in Hw as [Hc Hw].
  apply orb_false_elim in Ho as [Hc' Ho].
  destruct c; cbn in Hc, Hc'; try discriminate; cbn [serveOn callOn];
    cbn [doWrite doWriteHeader doFlush doHijack doOverwrite putHeader getHeader
         Earlier.inject_ops];
    try (rewrite IH by assumption); reflexivity.
Qed.

(** The values of one key, copied. *)
Lemma copyValues_other key : ∀ value i (h : http.Header) k,
  k ≠ textproto.CanonicalMIMEHeaderKey key →
  Earlier.copyValues key i value h !! k = h !! k.
Proof.
  induction value as [|v rest IH]; intros i h k Hk; [reflexivity|].
  cbn [Earlier.copyValues]. rewrite IH by assumption.
  destruct (i =? 0)%nat; unfold Header_Set, Header_Add;
    by rewrite lookup_insert_ne.
Qed.

Lemma copyValues_added key : ∀ rest i (h : http.Header) vs,
  h !! textproto.CanonicalMIMEHeaderKey key = Some vs →
  Earlier.copyValues key (S i) rest h !! textproto.CanonicalMIMEHeaderKey key
  = Some (vs ++ rest)%list.
Proof.
  induction rest as [|v rest IH]; intros i h vs Hh.
  - cbn. by rewrite app_nil_r.
  - cbn [Earlier.copyValues Nat.eqb].
    rewrite (IH (S i) _ (vs ++ [v])%list).
    + by rewrite <- app_assoc.
    + unfold Header_Add. by rewrite Hh, lookup_insert_eq.
Qed.

Lemma copyValues_same key (h : http.Header) value :
  Earlier.copyValues key 0 value h !! textproto.CanonicalMIMEHeaderKey key
  = match value with
    | [] => h !! textproto.CanonicalMIMEHeaderKey key
    | _ :: _ => Some value
    end.
Proof.
  destruct value as [|v rest]; [reflexivity|].
  cbn [Earlier.copyValues Nat.eqb].
  rewrite (copyValues_added key rest 0 _ [v]); [reflexivity|].
  unfold Header_Set. by rewrite lookup_insert_eq.
Qed.

Lemma copyAll_lookup order : ∀ (h : http.Header) k,
  NoDup order.*1 →
  (∀ kv, kv ∈ order → textproto.CanonicalMIMEHeaderKey kv.1 = kv.1) →
  copyAll order h !! k
  = match (list_to_map order : http.Header) !! k with
    | Some (v :: vs) => Some (v :: vs)
    | _ => h !! k
    end.
Proof.
  induction order as [|[key value] order IH]; intros h k Hnd Hcan; [reflexivity|].
  apply NoDup_cons in Hnd as [Hnotin Hnd].
  assert (Hkey : textproto.CanonicalMIMEHeaderKey key = key).
  { apply (Hcan (key, value)). left. }
  unfold copyAll. cbn [fold_left fst snd]. fold (copyAll order).
  rewrite IH; [|assumption|intros kv Hkv; apply Hcan; by right].
  rewrite list_to_map_cons, lookup_insert.
  case_decide as Hd.
  - rewrite <- Hd. clear Hd k.
    rewrite (not_elem_of_list_to_map_1 order key Hnotin).
    pose proof (copyValues_same key h value) as Hs. rewrite Hkey in Hs.
    rewrite Hs. by destruct value.
  - destruct (list_to_map order !! k) as [[|v vs]|];
      try reflexivity; apply copyValues_other; congruence.
Qed.

Lemma copy_headers_fold order : ∀ rw,
  fold_left (λ rw kv, rw_setHeader rw (Earlier.copyValues kv.1 0 kv.2 (header rw))) order rw
  = rw_setHeader rw (copyAll order (header rw)).
Proof.
  induction order as [|kv order IH]; intros rw; [by destruct rw|].
  cbn [fold_left]. rewrite IH. reflexivity.
Qed.

Lemma copy_delivered http_Error inject order P h0 :
  takes P (Earlier.injCode inject) →
  delivered (Earlier.copy http_Error inject order (freshOf P h0)).1
    = Some (Earlier.injCode inject, copyAll order h0, Earlier.injData inject)
  ∧ (Earlier.copy http_Error inject order (freshOf P h0)).2 = None.
Proof.
  intros [Hc Hb]. unfold Earlier.copy. rewrite copy_headers_fold.
  unfold rw_WriteHeader, rw_Write. cbn. rewrite Hc. cbn.
  destruct (Earlier.injData inject); cbn; [auto|]. rewrite Hb. cbn. auto.
Qed.

Lemma ServeHTTP_inject_eq http_Error a E rw req :
  Earlier.ServeHTTP_inject http_Error a E rw req =
  match injectedPanic a req with
  | Some v =>
      {| Earlier.sink := rw; Earlier.effects := Earlier.noEffects;
         Earlier.panicked := Some v |}
  | None =>
      if String.eqb (Header_Get (Earlier.injHeader (injected a req)) (Earlier.notifyHeader a))
           EmptyString
      then
        let copied :=
          Earlier.copy http_Error
            {| Earlier.injHeader :=
                 Header_Del (Earlier.injHeader (injected a req)) (Earlier.notifyHeader a);
               Earlier.injCode := Earlier.injCode (injected a req);
               Earlier.injData := Earlier.injData (injected a req) |}
            (Earlier.rangeOrder E
               (Header_Del (Earlier.injHeader (injected a req)) (Earlier.notifyHeader a)))
            rw in
        {| Earlier.sink := copied.1;
           Earlier.effects := Earlier.noEffects; Earlier.panicked := copied.2 |}
      else
        {| Earlier.sink := rw;
           Earlier.effects :=
             Earlier.relay a E
               (Header_Get (Earlier.injHeader (injected a req)) (Earlier.notifyHeader a));
           Earlier.panicked := None |}
  end.
Proof.
  unfold Earlier.ServeHTTP_inject, injected, injectedPanic.
  destruct (serveOn (Earlier.next a) Earlier.newInjectWriter req) as [[wr req'] pan].
  cbn [fst snd]. destruct pan; [reflexivity|].
  destruct (String.eqb _ EmptyString); [|reflexivity].
  cbv zeta. cbn [Earlier.injHeader].
  destruct (Earlier.copy _ _ _ _). reflexivity.
Qed.

(** X16. In header2notify.go the response of the handler is lost whenever
    the handler panics or leaves a marker value that is not empty: the real
    writer receives no header, no status code and no byte, whether the
    notification succeeds or not. *)
Theorem inject_variant_drops_marked_response http_Error a E rw req :
  injectedPanic a req ≠ None
  ∨ Header_Get (Earlier.injHeader (injected a req)) (Earlier.notifyHeader a) ≠ EmptyString →
  Earlier.sink (Earlier.ServeHTTP_inject http_Error a E rw req) = rw.
Proof.
  intros Hc. rewrite ServeHTTP_inject_eq.
  destruct (injectedPanic a req); [reflexivity|].
  destruct (String.eqb_spec
              (Header_Get (Earlier.injHeader (injected a req)) (Earlier.notifyHeader a))
              EmptyString) as [Hv|Hv]; [|reflexivity].
  destruct Hc as [Hc|Hc]; [by destruct Hc | by destruct (Hc Hv)].
Qed.

Lemma inject_variant_drops_marked_response_witness :
  delivered (Earlier.sink
               (Earlier.ServeHTTP_inject EarlierCases.noError
                  (EarlierCases.middleware Tests.validBadRequest)
                  EarlierCases.mockAccepted (fresh ∅) Tests.req)) = None.
Proof.
  rewrite (inject_variant_drops_marked_response EarlierCases.noError
             (EarlierCases.middleware Tests.validBadRequest)
             EarlierCases.mockAccepted (fresh ∅) Tests.req).
  - reflexivity.
  - right. vm_compute. discriminate.
Defined.

(** X17. In header2notify.go a [Write] replaces the slice of the writes
    before it: when the response is copied (the handler returns, the marker
    value is empty) to a sink that takes it, and the handler did not
    overwrite the slice of its last [Write] afterwards, the body the client
    receives is the bytes of that last [Write] alone, with the status code
    the handler set last. *)
Theorem inject_variant_keeps_last_write http_Error a E P h0 req pre b post :
  Earlier.next a = (pre ++ DoWrite b :: post)%list →
  existsb isPanic pre = false →
  existsb isPanic post = false →
  existsb isWrite post = false →
  existsb isOverwrite post = false →
  Header_Get (Earlier.injHeader (injected a req)) (Earlier.notifyHeader a) = EmptyString →
  takes P (lastCode (Earlier.next a) StatusOK) →
  ∃ h, delivered (Earlier.sink (Earlier.ServeHTTP_inject http_Error a E (freshOf P h0) req))
       = Some (lastCode (Earlier.next a) StatusOK, h, b).
Proof.
  intros Hn Hpre Hpost Hw Ho Hv Ht. rewrite ServeHTTP_inject_eq.
  assert (Hret : injectedPanic a req = None).
  { unfold injectedPanic.
    destruct (inject_handler (Earlier.next a) Earlier.newInjectWriter req) as (_ & _ & ->).
    apply ownPanic_none. rewrite Hn, existsb_app, Hpre. cbn. exact Hpost. }
  assert (Hcode : Earlier.injCode (injected a req) = lastCode (Earlier.next a) StatusOK).
  { unfold injected.
    by destruct (inject_handler (Earlier.next a) Earlier.newInjectWriter req)
      as (_ & -> & _). }
  assert (Hdata : Earlier.injData (injected a req) = b).
  { unfold injected. rewrite Hn, inject_serveOn_app by assumption.
    cbn [serveOn callOn doWrite Earlier.inject_ops].
    rewrite inject_data_kept by assumption. reflexivity. }
  rewrite Hret, Hv. cbn [String.eqb]. cbv zeta. cbn [Earlier.sink].
  rewrite Hcode, Hdata.
  edestruct (copy_delivered http_Error) as [-> _]; [exact Ht|].
  eexists. reflexivity.
Qed.

Lemma inject_variant_keeps_last_write_witness :
  (∃ h, delivered (Earlier.sink
                     (Earlier.ServeHTTP_inject EarlierCases.noError
                        (EarlierCases.middleware EarlierCases.twoWrites)
                        EarlierCases.mockAccepted (fresh ∅) Tests.req))
        = Some (201, h, "world"))
  ∧ ∃ c h, delivered (Earlier.sink
                        (Earlier.ServeHTTP (EarlierCases.middleware EarlierCases.twoWrites)
                           EarlierCases.mockAccepted (fresh ∅) Tests.req))
           = Some (c, h, "hello world").
Proof.
  split.
  - apply (inject_variant_keeps_last_write EarlierCases.noError
             (EarlierCases.middleware EarlierCases.twoWrites)
             EarlierCases.mockAccepted recorder ∅ Tests.req
             [DoHeaderSet "content-type" "text/plain"; DoHeaderAdd "Test" "1";
              DoHeaderAdd "Test" "2"; DoWriteHeader 201; DoWrite "hello "]
             "world" []); try reflexivity.
    split; reflexivity.
  - eexists _, _. vm_compute. reflexivity.
Defined.

(** When the handler fills the slice of its last [Write] again, as a copy
    loop does, the client receives the new bytes: the writer kept the
    slice, not the bytes. *)
Example inject_variant_aliases_slice :
  delivered (Earlier.sink
               (Earlier.ServeHTTP_inject EarlierCases.noError
                  (EarlierCases.middleware Streaming.reusesSlice)
                  EarlierCases.mockAccepted (fresh ∅) Tests.req))
  = Some (201, ∅, "XXXXXXXXXXX").
Proof. vm_compute. reflexivity. Qed.

(** X18. When header2notify.go copies the response (the handler returns,
    the marker value is empty) to a sink that takes it, and the handler
    changed headers through [Set], [Add] and [Del] only, the client receives
    the status code the handler set last, the bytes the writer holds, and as
    headers those the real writer had before, with the values of every
    header the handler left in place of them, in their order, the marker
    header left out: in whatever order the map is gone over. *)
Theorem inject_variant_copies_headers http_Error a E P h0 req :
  Earlier.rangeOrder E
    (Header_Del (Earlier.injHeader (injected a req)) (Earlier.notifyHeader a))
    ≡ₚ map_to_list
         (Header_Del (Earlier.injHeader (injected a req)) (Earlier.notifyHeader a)) →
  existsb isAssign (Earlier.next a) = false →
  injectedPanic a req = None →
  Header_Get (Earlier.injHeader (injected a req)) (Earlier.notifyHeader a) = EmptyString →
  takes P (lastCode (Earlier.next a) StatusOK) →
  ∃ h, delivered (Earlier.sink (Earlier.ServeHTTP_inject http_Error a E (freshOf P h0) req))
       = Some (lastCode (Earlier.next a) StatusOK, h, Earlier.injData (injected a req))
     ∧ ∀ k, h !! k
            = match Header_Del (headersLeft (Earlier.next a) ∅)
                      (Earlier.notifyHeader a) !! k with
              | Some (v :: vs) => Some (v :: vs)
              | _ => h0 !! k
              end.
Proof.
  intros Hperm Ha Hret Hv Ht. rewrite ServeHTTP_inject_eq, Hret, Hv.
  cbn [String.eqb]. cbv zeta. cbn [Earlier.sink].
  assert (Hcode : Earlier.injCode (injected a req) = lastCode (Earlier.next a) StatusOK).
  { unfold injected.
    by destruct (inject_handler (Earlier.next a) Earlier.newInjectWriter req)
      as (_ & -> & _). }
  assert (Hhdr : Earlier.injHeader (injected a req) = headersLeft (Earlier.next a) ∅).
  { unfold injected.
    by destruct (inject_handler (Earlier.next a) Earlier.newInjectWriter req)
      as (-> & _ & _). }
  rewrite Hcode. rewrite Hhdr in Hperm |- *.
  edestruct (copy_delivered http_Error) as [-> _]; [exact Ht|].
  cbn [Earlier.injData Earlier.injCode]. eexists. split; [reflexivity|].
  intros k.
  assert (Hcan : canonicalKeys
                   (Header_Del (headersLeft (Earlier.next a) ∅) (Earlier.notifyHeader a))).
  { apply canonicalKeys_Del.
    apply headersLeft_canonical; [assumption|apply canonicalKeys_empty]. }
  rewrite copyAll_lookup.
  - by rewrite <- (list_to_map_flip _ _ (symmetry Hperm)).
  - rewrite Hperm. apply NoDup_fst_map_to_list.
  - intros [key value] Hin. rewrite Hperm in Hin.
    apply elem_of_map_to_list in Hin. by apply (Hcan key value).
Qed.

Lemma inject_variant_copies_headers_witness :
  ∃ h, delivered (Earlier.sink
                    (Earlier.ServeHTTP_inject EarlierCases.noError
                       (EarlierCases.middleware EarlierCases.twoWrites)
                       EarlierCases.mockAccepted
                       (freshOf server
                          {[ "Content-Type" := ["text/html"]; "Date" := ["today"] ]})
                       Tests.req))
       = Some (201, h, "world")
     ∧ h !! "Content-Type" = Some ["text/plain"]
     ∧ h !! "Test" = Some ["1"; "2"]
     ∧ h !! "Date" = Some ["today"].
Proof.
  destruct (inject_variant_copies_headers EarlierCases.noError
              (EarlierCases.middleware EarlierCases.twoWrites)
              EarlierCases.mockAccepted server
              {[ "Content-Type" := ["text/html"]; "Date" := ["today"] ]}
              Tests.req) as (h & Hd & Hh).
  - reflexivity.
  - reflexivity.
  - reflexivity.
  - vm_compute. reflexivity.
  - split; reflexivity.
  - exists h. split; [exact Hd|].
    rewrite !Hh. repeat split; vm_compute; reflexivity.
Defined.

(** When the real writer refuses the bytes, [copy] hands the error to
    [http.Error], which comes too late for the status line. *)
Example inject_variant_reports_write_error :
  delivered (Earlier.sink
               (Earlier.ServeHTTP_inject EarlierCases.httpError
                  (EarlierCases.middleware Streaming.noContent)
                  EarlierCases.mockAccepted (freshOf server ∅) Tests.req))
    = Some (204, ∅, EmptyString)
  ∧ calls (Earlier.sink
             (Earlier.ServeHTTP_inject EarlierCases.httpError
                (EarlierCases.middleware Streaming.noContent)
                EarlierCases.mockAccepted (freshOf server ∅) Tests.req))
    = [CallWriteHeader 204; CallWrite "hello world"; CallWriteHeader 500;
       CallWrite (ErrBodyNotAllowed +:+ String (ascii_of_nat 10) EmptyString)].
Proof. split; vm_compute; reflexivity. Qed.

(** ** The three variants notify alike *)

(** On the buffer a handler ends by its own panic, or by that of a [Flush]
    whose status code the sink refuses; when the sink refuses none of the
    codes at hand, the header map and the panic are those read off the
    calls. *)
Lemma wrapped_calm h : ∀ (wr : wrappedResponseWriter) req,
  (∀ c, In (DoWriteHeader c) h ∨ c = code wr →
        ∀ v, onWriteHeader (policy (w wr)) c ≠ Refuse v) →
  Header (serveOn h wr req).1.1 = headersLeft h (Header wr)
  ∧ (serveOn h wr req).2 = ownPanic h.
Proof.
  induction h as [|c h IH]; intros wr req Hok; [auto|].
  assert (Hrest : ∀ c', In (DoWriteHeader c') h ∨ c' = code wr →
                        ∀ v, onWriteHeader (policy (w wr)) c' ≠ Refuse v).
  { intros c' Hc. apply Hok. destruct Hc; [left; by right|by right]. }
  destruct c as [k v|k v|k|k vs|b|c|k v|k v|v| | |b];
    cbn [serveOn callOn headersLeft ownPanic];
    cbn [doWrite doWriteHeader doFlush doHijack doOverwrite putHeader getHeader wrapped_ops].
  - by apply IH.
  - by apply IH.
  - by apply IH.
  - by apply IH.
  - by apply (IH (Write wr b)).
  - apply (IH (WriteHeader wr c)). intros c' Hc. apply Hok.
    destruct Hc as [Hc| ->]; [left; by right|left; by left].
  - by apply IH.
  - by apply IH.
  - auto.
  - pose proof (Flush_kept wr) as (Hh & Hp & _ & Hc).
    assert (Hn : (Flush wr).2 = None).
    { unfold Flush. unfold rw_WriteHeader. cbn.
      destruct (hijacked (w wr)); [by destruct (io_Copy _ _)|].
      destruct (wrote (w wr)); [by destruct (io_Copy _ _)|].
      destruct (onWriteHeader (policy (w wr)) (code wr)) eqn:Hv;
        try by destruct (io_Copy _ _).
      exfalso. apply (Hok (code wr) (or_intror eq_refl) v). exact Hv. }
    destruct (Flush wr) as [wr' p]. cbn [fst snd] in *. subst p.
    change (Header wr) with (header (w wr)). rewrite <- Hh.
    apply IH. by rewrite Hp, Hc.
  - assert (Hk : Header (Hijack wr).1 = Header wr
                 ∧ policy (w (Hijack wr).1) = policy (w wr)
                 ∧ code (Hijack wr).1 = code wr).
    { unfold Hijack, rw_Hijack.
      destruct (isHijacker (policy (w wr))) eqn:Hj; cbn; rewrite ?Hj; auto. }
    destruct Hk as (Hh & Hp & Hc). rewrite <- Hh.
    apply IH. by rewrite Hp, Hc.
  - by apply IH.
Qed.

(** On the real writer a handler ends by its own panic, or by that of a
    [WriteHeader] whose status code the writer refuses. *)
Lemma sink_calm h : ∀ (rw : ResponseWriter) req,
  (∀ c, In (DoWriteHeader c) h → ∀ v, onWriteHeader (policy rw) c ≠ Refuse v) →
  header (serveOn h rw req).1.1 = headersLeft h (header rw)
  ∧ (serveOn h rw req).2 = ownPanic h.
Proof.
  induction h as [|c h IH]; intros rw req Hok; [auto|].
  assert (Hrest : ∀ c', In (DoWriteHeader c') h →
                        ∀ v, onWriteHeader (policy rw) c' ≠ Refuse v).
  { intros c' Hc. apply Hok. by right. }
  destruct c as [k v|k v|k|k vs|b|c|k v|k v|v| | |b];
    cbn [serveOn callOn headersLeft ownPanic];
    cbn [doWrite doWriteHeader doFlush doHijack doOverwrite putHeader getHeader sink_ops].
  - by apply IH.
  - by apply IH.
  - by apply IH.
  - by apply IH.
  - pose proof (rw_Write_kept rw b) as (Hh & Hp & _). rewrite <- Hh.
    apply IH. by rewrite Hp.
  - pose proof (rw_WriteHeader_kept rw c) as (Hh & Hp & _).
    assert (Hn : (rw_WriteHeader rw c).2 = None).
    { unfold rw_WriteHeader. cbn.
      destruct (hijacked rw); [reflexivity|].
      destruct (wrote rw); [reflexivity|].
      destruct (onWriteHeader (policy rw) c) eqn:Hv; try reflexivity.
      exfalso. apply (Hok c (or_introl eq_refl) v). exact Hv. }
    destruct (rw_WriteHeader rw c) as [rw' p]. cbn [fst snd] in *. subst p.
    rewrite <- Hh. apply IH. by rewrite Hp.
  - by apply IH.
  - by apply IH.
  - auto.
  - assert (Hk : header (rw_Flush rw) = header rw ∧ policy (rw_Flush rw) = policy rw).
    { unfold rw_Flush. cbn. by sink_cases. }
    destruct Hk as [Hh Hp]. rewrite <- Hh. apply IH. by rewrite Hp.
  - assert (Hk : header (rw_Hijack rw) = header rw ∧ policy (rw_Hijack rw) = policy rw).
    { unfold rw_Hijack. by sink_cases. }
    destruct Hk as [Hh Hp]. rewrite <- Hh. apply IH. by rewrite Hp.
  - by apply IH.
Qed.

(** Without that condition the variants part: the real writer refuses the
    status code 0 while the handler runs, so that the variant that hands it
    to the handler never reaches the notification, while the buffer takes
    the code and the notification is sent. *)
Example variants_part_on_refused_code :
  Earlier.effects (Earlier.ServeHTTP_direct
                     (EarlierCases.middleware Streaming.zeroThenMarker)
                     EarlierCases.mockAccepted (fresh ∅) Tests.req)
    = Earlier.noEffects
  ∧ Earlier.effects (Earlier.ServeHTTP
                       (EarlierCases.middleware Streaming.zeroThenMarker)
                       EarlierCases.mockAccepted (fresh ∅) Tests.req)
    ≠ Earlier.noEffects.
Proof. split; [vm_compute; reflexivity|vm_compute; discriminate]. Qed.



(** ** One value for each header of the notification request *)

(** X20. Every header of a posted request has exactly one value, and that
    value is not empty: of a request header with several values the first
    alone is forwarded, and an empty value is never sent. *)
Theorem posted_headers_single_valued a E rw req r k vs :
  In r (posted (effects (ServeHTTP a E rw req))) →
  ReqHeader r !! k = Some vs →
  ∃ v, vs = [v] ∧ v ≠ EmptyString.
Proof.
  intros Hin Hk. destruct (posted_is_outgoing a E rw req r Hin) as (data & _ & ->).
  rewrite outgoing_lookup in Hk.
  destruct (configured (forwardHeaders a) k); cbn [andb] in Hk.
  - destruct (String.eqb_spec
                (strings.TrimSpace (requestValue (handledRequest a rw req) k)) EmptyString)
      as [He|Hne]; cbn [negb] in Hk.
    + destruct (String.eqb k "Content-Type"); [|discriminate].
      injection Hk as <-. eexists. split; [reflexivity|discriminate].
    + injection Hk as <-. eauto.
  - destruct (String.eqb k "Content-Type"); [|discriminate].
    injection Hk as <-. eexists. split; [reflexivity|discriminate].
Qed.

Lemma posted_headers_single_valued_witness :
  ReqHeader (outgoing (Tests.middleware Tests.forwarding Tests.forwardNames)
               (handledRequest (Tests.middleware Tests.forwarding Tests.forwardNames)
                  (fresh ∅) Tests.req) "hello world")
    !! "X-Test-Forward-A" = Some ["a"]
  ∧ ∃ v, ["a"] = [v] ∧ v ≠ EmptyString.
Proof.
  assert (Hk : ReqHeader
                 (outgoing (Tests.middleware Tests.forwarding Tests.forwardNames)
                    (handledRequest (Tests.middleware Tests.forwarding Tests.forwardNames)
                       (fresh ∅) Tests.req) "hello world")
                 !! "X-Test-Forward-A" = Some ["a"]) by (vm_compute; reflexivity).
  split; [exact Hk|].
  assert (Hin : In (outgoing (Tests.middleware Tests.forwarding Tests.forwardNames)
                      (handledRequest (Tests.middleware Tests.forwarding Tests.forwardNames)
                         (fresh ∅) Tests.req) "hello world")
                  (posted (effects
                             (ServeHTTP (Tests.middleware Tests.forwarding Tests.forwardNames)
                                Tests.mockAccepted (fresh ∅) Tests.req))))
    by (vm_compute; left; reflexivity).
  apply (posted_headers_single_valued
           (Tests.middleware Tests.forwarding Tests.forwardNames)
           Tests.mockAccepted (fresh ∅) Tests.req _ "X-Test-Forward-A" ["a"] Hin Hk).
Defined.
